(** * Conversation-flow reconstruction of the Strands/Streamlit chat page

    A shallow embedding of [src/app.py]: the streaming callback
    ([callback_handler], lines 44-142), the transcript replay loop
    (lines 160-211), the chat-input handler (lines 223-295) and the
    "clear history" button (lines 302-304).

    Python objects are modelled as follows.
    - Data received from the agent (event keyword arguments, messages,
      content elements) are immutable values of type [pyval]; the page
      never mutates them.
    - The lists the page itself creates and mutates in place
      ([conversation_flow], [current_message_tools],
      [current_message_results] and the copies stored in the transcript)
      live in a heap of list objects and are referred to by address, so
      that aliasing between the per-turn buffers and the stored turns is
      visible.
    - The display surface (Streamlit) is a write-only log of widgets.
    - Exceptions are explicit: a computation returns a result together
      with the state reached, and the state survives a raise, as in
      Python.
    - A [with] block shows the entry of its context manager, runs its
      body and shows the exit, also when the body raises. *)

Set Warnings "-register-all".
From Stdlib Require Import String Ascii ZArith List Bool Lia.
From stdpp Require Import base list.
Import ListNotations.
Local Open Scope string_scope.
Local Open Scope list_scope.

(** ** Python values *)

Inductive pyval : Type :=
| PNone
| PBool (b : bool)
| PInt (n : Z)
| PStr (s : string)
| PList (l : list pyval)
| PDict (d : list (string * pyval)).

(** A dict with string keys, in insertion order. *)
Definition dict := list (string * pyval).

Inductive exn : Type :=
| KeyError (key : string)
| TypeError
| AttributeError
| AgentFailure.

Inductive result (A : Type) : Type :=
| Ok (a : A)
| Raise (e : exn).
Arguments Ok {A} a.
Arguments Raise {A} e.

Definition raised {A} (r : result A) : bool :=
  match r with Ok _ => false | Raise _ => true end.

(** [d.get(k)] on the underlying association list. *)
Fixpoint assoc (k : string) (d : dict) : option pyval :=
  match d with
  | [] => None
  | (k', v) :: d' => if String.eqb k k' then Some v else assoc k d'
  end.

(** [k in d] for a dict [d]. *)
Definition dict_in (k : string) (d : dict) : bool :=
  match assoc k d with Some _ => true | None => false end.

(** [bool(v)]. *)
Definition truthy (v : pyval) : bool :=
  match v with
  | PNone => false
  | PBool b => b
  | PInt n => negb (Z.eqb n 0)
  | PStr s => negb (String.eqb s "")
  | PList l => match l with [] => false | _ => true end
  | PDict d => match d with [] => false | _ => true end
  end.

(** [v == s] for a string literal [s]: only an equal string is equal. *)
Definition py_eq_str (v : pyval) (s : string) : bool :=
  match v with
  | PStr t => String.eqb t s
  | _ => false
  end.

(** [p in s] for strings: substring test. *)
Fixpoint is_substring (p s : string) : bool :=
  String.prefix p s ||
  match s with
  | EmptyString => false
  | String _ s' => is_substring p s'
  end.

(** Iterating a string yields its one-character strings. *)
Fixpoint chars (s : string) : list pyval :=
  match s with
  | EmptyString => []
  | String c s' => PStr (String c EmptyString) :: chars s'
  end.

(** [k in v] for a string literal [k]. *)
Definition py_in (k : string) (v : pyval) : result bool :=
  match v with
  | PDict d => Ok (dict_in k d)
  | PList l => Ok (existsb (fun x => py_eq_str x k) l)
  | PStr s => Ok (is_substring k s)
  | PNone | PBool _ | PInt _ => Raise TypeError
  end.

(** [v[k]] for a string literal [k]. *)
Definition py_getitem (v : pyval) (k : string) : result pyval :=
  match v with
  | PDict d => match assoc k d with
               | Some x => Ok x
               | None => Raise (KeyError k)
               end
  | _ => Raise TypeError
  end.

(** [v.get(k, dflt)]; only dicts have the method. *)
Definition py_get (v : pyval) (k : string) (dflt : pyval) : result pyval :=
  match v with
  | PDict d => Ok (match assoc k d with Some x => x | None => dflt end)
  | _ => Raise AttributeError
  end.

(** [for x in v]. *)
Definition py_iter (v : pyval) : result (list pyval) :=
  match v with
  | PList l => Ok l
  | PDict d => Ok (map (fun kv => PStr (fst kv)) d)
  | PStr s => Ok (chars s)
  | PNone | PBool _ | PInt _ => Raise TypeError
  end.

(** [s + v] for a string [s] (the [+=] on the text buffers). *)
Definition py_str_add (s : string) (v : pyval) : result string :=
  match v with
  | PStr t => Ok (String.append s t)
  | _ => Raise TypeError
  end.

(** ** Flow items and the records stored for tool calls and results *)

(** [{"type": "text", "content": c}] *)
Definition TextChunk (c : pyval) : pyval :=
  PDict [("type", PStr "text"); ("content", c)].

(** [{"name": n, "input": i, "tool_use_id": id}] *)
Definition tool_info (n i id : pyval) : pyval :=
  PDict [("name", n); ("input", i); ("tool_use_id", id)].

(** [{"type": "tool_call", "tool": t}] *)
Definition ToolCall (t : pyval) : pyval :=
  PDict [("type", PStr "tool_call"); ("tool", t)].

(** [{"status": st, "content": c}] *)
Definition result_info (st c : pyval) : pyval :=
  PDict [("status", st); ("content", c)].

(** [{"type": "tool_result", "result": r}] *)
Definition ToolResult (r : pyval) : pyval :=
  PDict [("type", PStr "tool_result"); ("result", r)].

(** ** The display surface *)

Inductive widget : Type :=
| Write (v : pyval)                  (* st.write(v) *)
| ToolCallBadge (name : pyval)       (* st.info("Tool Call: {name}") *)
| SuccessBadge                       (* st.success("Tool Result: Success") *)
| ErrorBadge (label : pyval)         (* st.error("Tool Result: {label}") *)
| Code (v : pyval)                   (* st.code(v) *)
| CodeStr (v : pyval)                (* st.code(str(v)) *)
| Json (v : pyval)                   (* st.json(v) *)
| ExpanderOpen (label : string) (expanded : bool)
| ExpanderClose
| ChatMessageOpen (role : string)
| ChatMessageClose
| SpinnerOpen
| SpinnerClose
| UploadedBadge (n : nat)            (* st.success("Uploaded {n} file(s) ...") *)
| FilesCaption (paths : list string) (* st.caption of the base names *).

(** ** Session state *)

Definition loc := nat.

(** A transcript entry: the dict appended to [st.session_state.messages].
    An optional field is a key that may be missing from the dict; the
    list-valued fields hold the address of a list object. *)
Record message : Type := Message {
  role : string;
  content : string;
  m_conversation_flow : option loc;
  m_tools : option loc;
  m_results : option loc
}.

Record session_state : Type := SessionState {
  heap : list (list pyval);
  display : list widget;
  messages : list message;
  file_uploader_key : Z;
  accumulated_text : string;
  current_message_tools : loc;
  current_message_results : loc;
  current_message_accumulated : string;
  all_agent_text : string;
  conversation_flow : loc
}.

Definition set_heap (h : list (list pyval)) (s : session_state) :=
  SessionState h (display s) (messages s) (file_uploader_key s)
    (accumulated_text s) (current_message_tools s)
    (current_message_results s) (current_message_accumulated s)
    (all_agent_text s) (conversation_flow s).

Definition set_display (d : list widget) (s : session_state) :=
  SessionState (heap s) d (messages s) (file_uploader_key s)
    (accumulated_text s) (current_message_tools s)
    (current_message_results s) (current_message_accumulated s)
    (all_agent_text s) (conversation_flow s).

Definition set_messages (m : list message) (s : session_state) :=
  SessionState (heap s) (display s) m (file_uploader_key s)
    (accumulated_text s) (current_message_tools s)
    (current_message_results s) (current_message_accumulated s)
    (all_agent_text s) (conversation_flow s).

Definition set_file_uploader_key (k : Z) (s : session_state) :=
  SessionState (heap s) (display s) (messages s) k
    (accumulated_text s) (current_message_tools s)
    (current_message_results s) (current_message_accumulated s)
    (all_agent_text s) (conversation_flow s).

Definition set_accumulated_text (t : string) (s : session_state) :=
  SessionState (heap s) (display s) (messages s) (file_uploader_key s)
    t (current_message_tools s)
    (current_message_results s) (current_message_accumulated s)
    (all_agent_text s) (conversation_flow s).

Definition set_current_message_tools (l : loc) (s : session_state) :=
  SessionState (heap s) (display s) (messages s) (file_uploader_key s)
    (accumulated_text s) l
    (current_message_results s) (current_message_accumulated s)
    (all_agent_text s) (conversation_flow s).

Definition set_current_message_results (l : loc) (s : session_state) :=
  SessionState (heap s) (display s) (messages s) (file_uploader_key s)
    (accumulated_text s) (current_message_tools s)
    l (current_message_accumulated s)
    (all_agent_text s) (conversation_flow s).

Definition set_current_message_accumulated (t : string) (s : session_state) :=
  SessionState (heap s) (display s) (messages s) (file_uploader_key s)
    (accumulated_text s) (current_message_tools s)
    (current_message_results s) t
    (all_agent_text s) (conversation_flow s).

Definition set_all_agent_text (t : string) (s : session_state) :=
  SessionState (heap s) (display s) (messages s) (file_uploader_key s)
    (accumulated_text s) (current_message_tools s)
    (current_message_results s) (current_message_accumulated s)
    t (conversation_flow s).

Definition set_conversation_flow (l : loc) (s : session_state) :=
  SessionState (heap s) (display s) (messages s) (file_uploader_key s)
    (accumulated_text s) (current_message_tools s)
    (current_message_results s) (current_message_accumulated s)
    (all_agent_text s) l.

(** The list object at an address. *)
Definition deref (h : list (list pyval)) (l : loc) : list pyval :=
  match h !! l with Some xs => xs | None => [] end.

(** ** Computations: state plus exceptions *)

Definition M (A : Type) : Type := session_state -> result A * session_state.

Definition ret {A} (a : A) : M A := fun s => (Ok a, s).

Definition bind {A B} (c : M A) (k : A -> M B) : M B :=
  fun s => match c s with
           | (Ok a, s') => k a s'
           | (Raise e, s') => (Raise e, s')
           end.

Declare Scope M_scope.
Delimit Scope M_scope with M.
Bind Scope M_scope with M.
Notation "x <- c ;; k" := (bind c (fun x => k))
  (at level 100, c at next level, k at level 200, right associativity)
  : M_scope.
Notation "c ;; k" := (bind c (fun _ => k))
  (at level 100, k at level 200, right associativity) : M_scope.
Local Open Scope M_scope.

(** A pure operation that may raise. *)
Definition lift {A} (r : result A) : M A := fun s => (r, s).

Definition get : M session_state := fun s => (Ok s, s).

Definition modify (f : session_state -> session_state) : M unit :=
  fun s => (Ok tt, f s).

Fixpoint for_each {A} (xs : list A) (body : A -> M unit) : M unit :=
  match xs with
  | [] => ret tt
  | x :: xs' => body x ;; for_each xs' body
  end.

(** One call on the display surface. *)
Definition show (w : widget) : M unit :=
  modify (fun s => set_display (display s ++ [w]) s).

(** The body of a [with] block once the context manager is entered: the
    exit is shown when the body returns and when it raises, and the
    result of the body, a raise included, is the result of the block. *)
Definition exiting {A} (close : widget) (body : M A) : M A :=
  fun s => match body s with
           | (r, s') => (r, set_display (display s' ++ [close]) s')
           end.

(** [with ctx: body]. *)
Definition within {A} (open close : widget) (body : M A) : M A :=
  show open ;; exiting close body.

(** [xs.append(v)] on the list object at [l]. *)
Definition append_at (l : loc) (v : pyval) : M unit :=
  modify (fun s => set_heap (<[l := deref (heap s) l ++ [v]]> (heap s)) s).

(** [st.session_state.conversation_flow.append(v)] and its two siblings:
    the attribute is read, then the list object it names is extended. *)
Definition flow_append (v : pyval) : M unit :=
  s <- get ;; append_at (conversation_flow s) v.

Definition tools_append (v : pyval) : M unit :=
  s <- get ;; append_at (current_message_tools s) v.

Definition results_append (v : pyval) : M unit :=
  s <- get ;; append_at (current_message_results s) v.

(** A new list object holding [xs]; its address is returned. *)
Definition alloc (xs : list pyval) : M loc :=
  fun s => (Ok (length (heap s)), set_heap (heap s ++ [xs]) s).

(** [xs.copy()] for the list object at [l]. *)
Definition copy_list (l : loc) : M loc :=
  s <- get ;; alloc (deref (heap s) l).

(** ** The streaming callback (lines 44-142) *)

(** Lines 65-99: one content element of an assistant message. *)
Definition assistant_content (content : pyval) : M unit :=
  has_text <- lift (py_in "text" content) ;;
  if has_text then
    text_content <- lift (py_getitem content "text") ;;
    show (Write text_content) ;;
    flow_append (TextChunk text_content)
  else
    has_tool <- lift (py_in "toolUse" content) ;;
    if has_tool then
      tool_use <- lift (py_getitem content "toolUse") ;;
      n <- lift (py_getitem tool_use "name") ;;
      i <- lift (py_getitem tool_use "input") ;;
      id <- lift (py_getitem tool_use "toolUseId") ;;
      n' <- lift (py_getitem tool_use "name") ;;
      show (ToolCallBadge n') ;;
      within (ExpanderOpen "Tool Input" false) ExpanderClose
        (i' <- lift (py_getitem tool_use "input") ;;
         show (Json i')) ;;
      flow_append (ToolCall (tool_info n i id)) ;;
      tools_append (tool_info n i id)
    else ret tt.

(** Lines 120-124 (and 181-185, 207-211): one part of a result's content. *)
Definition show_part (item : pyval) : M unit :=
  has_text <- lift (py_in "text" item) ;;
  if has_text then
    t <- lift (py_getitem item "text") ;;
    show (Code t)
  else
    has_json <- lift (py_in "json" item) ;;
    if has_json then
      j <- lift (py_getitem item "json") ;;
      show (Json j)
    else ret tt.

(** Lines 112-129: the badge and details shown while the turn runs. *)
Definition show_result_live (result : pyval) : M unit :=
  st <- lift (py_get result "status" PNone) ;;
  if py_eq_str st "success" then
    show SuccessBadge ;;
    result_content <- lift (py_get result "content" (PList [])) ;;
    if truthy result_content then
      within (ExpanderOpen "Tool Result" true) ExpanderClose
        (items <- lift (py_iter result_content) ;;
         for_each items show_part)
    else ret tt
  else
    label <- lift (py_get result "status" (PStr "Failed")) ;;
    show (ErrorBadge label) ;;
    has_content <- lift (py_in "content" result) ;;
    if has_content then
      within (ExpanderOpen "Error Details" true) ExpanderClose
        (c <- lift (py_getitem result "content") ;;
         show (CodeStr c))
    else ret tt.

(** Lines 103-138: one content element of a user message. *)
Definition user_content (content : pyval) : M unit :=
  has_result <- lift (py_in "toolResult" content) ;;
  if has_result then
    result <- lift (py_getitem content "toolResult") ;;
    st <- lift (py_get result "status" PNone) ;;
    c <- lift (py_get result "content" (PList [])) ;;
    show_result_live result ;;
    flow_append (ToolResult (result_info st c)) ;;
    results_append (result_info st c)
  else ret tt.

(** Lines 59-138: a completed message. *)
Definition handle_message (message : pyval) : M unit :=
  r <- lift (py_get message "role" PNone) ;;
  is_assistant <- (if py_eq_str r "assistant"
                   then lift (py_in "content" message) else ret false) ;;
  if is_assistant then
    c <- lift (py_getitem message "content") ;;
    items <- lift (py_iter c) ;;
    for_each items assistant_content
  else
    r' <- lift (py_get message "role" PNone) ;;
    is_user <- (if py_eq_str r' "user"
                then lift (py_in "content" message) else ret false) ;;
    if is_user then
      c <- lift (py_getitem message "content") ;;
      items <- lift (py_iter c) ;;
      for_each items user_content
    else ret tt.

(** ["data" in kwargs and kwargs["data"]] (line 48). *)
Definition has_data (kwargs : dict) : bool :=
  match assoc "data" kwargs with
  | Some d => truthy d
  | None => false
  end.

Definition callback_handler (kwargs : dict) : M unit :=
  if has_data kwargs then
    d <- lift (py_getitem (PDict kwargs) "data") ;;
    s <- get ;;
    t <- lift (py_str_add (accumulated_text s) d) ;;
    modify (set_accumulated_text t) ;;
    d' <- lift (py_getitem (PDict kwargs) "data") ;;
    s' <- get ;;
    t' <- lift (py_str_add (all_agent_text s') d') ;;
    modify (set_all_agent_text t')
  else if dict_in "current_tool_use" kwargs then
    ret tt
  else if dict_in "message" kwargs then
    message <- lift (py_getitem (PDict kwargs) "message") ;;
    handle_message message
  else
    ret tt.

(** ** Replaying the transcript (lines 160-211) *)

(** Lines 168-171 and 195-197. *)
Definition show_tool (tool : pyval) : M unit :=
  n <- lift (py_getitem tool "name") ;;
  show (ToolCallBadge n) ;;
  within (ExpanderOpen "Tool Input" false) ExpanderClose
    (i <- lift (py_getitem tool "input") ;;
     show (Json i)).

(** Lines 173-185 and 201-211. *)
Definition show_result (result : pyval) : M unit :=
  st <- lift (py_getitem result "status") ;;
  (if py_eq_str st "success" then
     show SuccessBadge
   else
     st' <- lift (py_getitem result "status") ;;
     show (ErrorBadge st')) ;;
  within (ExpanderOpen "Tool Result" false) ExpanderClose
    (c <- lift (py_get result "content" (PList [])) ;;
     items <- lift (py_iter c) ;;
     for_each items show_part).

(** Lines 165-185. *)
Definition show_flow_item (flow_item : pyval) : M unit :=
  t <- lift (py_getitem flow_item "type") ;;
  if py_eq_str t "text" then
    c <- lift (py_getitem flow_item "content") ;;
    show (Write c)
  else
    t' <- lift (py_getitem flow_item "type") ;;
    if py_eq_str t' "tool_call" then
      tool <- lift (py_getitem flow_item "tool") ;;
      show_tool tool
    else
      t'' <- lift (py_getitem flow_item "type") ;;
      if py_eq_str t'' "tool_result" then
        result <- lift (py_getitem flow_item "result") ;;
        show_result result
      else ret tt.

(** Lines 163-211: the body of one chat bubble. *)
Definition show_message_body (m : message) : M unit :=
  match (if String.eqb (role m) "assistant"
         then m_conversation_flow m else None) with
  | Some l =>
      s <- get ;;
      for_each (deref (heap s) l) show_flow_item
  | None =>
      (if negb (String.eqb (content m) "")
       then show (Write (PStr (content m))) else ret tt) ;;
      if String.eqb (role m) "assistant" then
        match m_tools m with
        | Some l => s <- get ;; for_each (deref (heap s) l) show_tool
        | None => ret tt
        end ;;
        match m_results m with
        | Some l => s <- get ;; for_each (deref (heap s) l) show_result
        | None => ret tt
        end
      else ret tt
  end.

(** Lines 160-161: one chat bubble. *)
Definition show_message (m : message) : M unit :=
  within (ChatMessageOpen (role m)) ChatMessageClose (show_message_body m).

Definition display_chat_messages : M unit :=
  s <- get ;;
  for_each (messages s) show_message.

(** ** One submission (lines 223-295) *)

(** Lines 19-42: the session as first created. *)
Definition init_session : session_state :=
  SessionState [[]; []; []] [] [] 0 "" 0 1 "" "" 2.

(** Lines 255-261: every buffer is rebound to a new, empty object. *)
Definition reset : M unit :=
  modify (set_accumulated_text "") ;;
  l <- alloc [] ;;
  modify (set_current_message_tools l) ;;
  l' <- alloc [] ;;
  modify (set_current_message_results l') ;;
  modify (set_current_message_accumulated "") ;;
  modify (set_all_agent_text "") ;;
  l'' <- alloc [] ;;
  modify (set_conversation_flow l'').

(** What one blocking call of the external agent does, as far as the page
    can tell: the events it passes to the callback, in order, and then
    either the string [str(result)] of the value it returns or a raise. An
    exception raised by the callback leaves the agent call at once. *)
Record agent_run : Type := AgentRun {
  events : list dict;
  outcome : result string
}.

Definition invoke_agent (run : agent_run) : M string :=
  for_each (events run) callback_handler ;;
  lift (outcome run).

Definition newline : string := String (ascii_of_nat 10) EmptyString.

(** Line 241. *)
Definition file_info (uploaded_file_paths : list string) : string :=
  match uploaded_file_paths with
  | [] => ""
  | _ => String.append newline (String.append newline
           (String.append "Uploaded files: "
              (String.concat ", " uploaded_file_paths)))
  end.

(** [xs.copy()] when the list at [l] is non-empty, else the key is left
    out of the stored dict (lines 283-287). *)
Definition copy_if_nonempty (l : loc) : M (option loc) :=
  s <- get ;;
  match deref (heap s) l with
  | [] => ret None
  | _ => l' <- copy_list l ;; ret (Some l')
  end.

(** Lines 276-289. *)
Definition store_assistant_message (result : string) : M unit :=
  s <- get ;;
  let text := if negb (String.eqb (all_agent_text s) "")
              then all_agent_text s else result in
  flow <- copy_list (conversation_flow s) ;;
  s1 <- get ;;
  tools <- copy_if_nonempty (current_message_tools s1) ;;
  s2 <- get ;;
  results <- copy_if_nonempty (current_message_results s2) ;;
  modify (fun s' =>
    set_messages
      (messages s' ++ [Message "assistant" text (Some flow) tools results]) s').

(** Lines 224-265: the user turn is stored and shown, the per-turn
    buffers are reset, and the assistant bubble and the spinner are
    entered. [uploaded_file_paths] are the paths under which the file
    store saved the uploaded files (lines 228-238). *)
Definition begin_submission (prompt : string)
    (uploaded_file_paths : list string) : M unit :=
  let uploaded := match uploaded_file_paths with [] => false | _ => true end in
  (if uploaded
   then show (UploadedBadge (length uploaded_file_paths)) else ret tt) ;;
  modify (fun s =>
    set_messages (messages s ++ [Message "user" prompt None None None]) s) ;;
  within (ChatMessageOpen "user") ChatMessageClose
    (show (Write (PStr prompt)) ;;
     if uploaded then show (FilesCaption uploaded_file_paths) else ret tt) ;;
  reset ;;
  show (ChatMessageOpen "assistant") ;;
  show SpinnerOpen.

(** Lines 264-271: the agent is called inside the spinner, then the text
    accumulated is written inside the assistant bubble. The two context
    managers were entered at the end of [begin_submission]; each is left
    when its body returns and when it raises. *)
Definition agent_call (run : agent_run) : M string :=
  exiting ChatMessageClose
    (result <- exiting SpinnerClose (invoke_agent run) ;;
     s <- get ;;
     (if negb (String.eqb (accumulated_text s) "")
      then show (Write (PStr (accumulated_text s))) else ret tt) ;;
     ret result).

(** Lines 275-293: what follows the assistant bubble. *)
Definition finish_submission (result : string)
    (uploaded_file_paths : list string) : M unit :=
  store_assistant_message result ;;
  match uploaded_file_paths with
  | [] => ret tt
  | _ => modify (fun s' =>
           set_file_uploader_key (file_uploader_key s' + 1)%Z s')
  end.

(** Line 245. *)
Definition full_prompt (prompt : string) (uploaded_file_paths : list string)
  : string :=
  String.append prompt (file_info uploaded_file_paths).

(** The handler of the chat input (lines 223-295); [agent] gives the run
    of the agent for a prompt. *)
Definition chat_input (prompt : string) (uploaded_file_paths : list string)
    (agent : string -> agent_run) : M unit :=
  if negb (String.eqb prompt "") then
    begin_submission prompt uploaded_file_paths ;;
    result <- agent_call (agent (full_prompt prompt uploaded_file_paths)) ;;
    finish_submission result uploaded_file_paths
  else ret tt.

(** Lines 302-304. *)
Definition clear_chat_history : M unit :=
  modify (set_messages []).

(** ** Views of the state *)

Definition flow_log (s : session_state) : list pyval :=
  deref (heap s) (conversation_flow s).

Definition tool_calls (s : session_state) : list pyval :=
  deref (heap s) (current_message_tools s).

Definition tool_results (s : session_state) : list pyval :=
  deref (heap s) (current_message_results s).

(** The state a computation ends in, and its result. *)
Definition exec {A} (c : M A) (s : session_state) : session_state := snd (c s).
Definition eval {A} (c : M A) (s : session_state) : result A := fst (c s).

(** ** Typed events

    The events the agent is documented to send, with their encoding as the
    keyword arguments of the callback. *)

Inductive part : Type :=
| TextPart (t : pyval)                     (* {"text": t} *)
| StructuredPart (j : pyval).              (* {"json": j} *)

Inductive element : Type :=
| EText (t : pyval)                        (* {"text": t} *)
| EToolUse (n i id : pyval)                (* {"toolUse": {...}} *)
| EToolResult (st : option pyval) (c : option (list part)).
                                           (* {"toolResult": {...}} *)

Inductive event : Type :=
| TextDelta (d : string)                   (* data=d *)
| ToolFragment (fragment : pyval)          (* current_tool_use=fragment *)
| AssistantMessage (els : list element)    (* message={"role": "assistant", ...} *)
| UserMessage (els : list element)         (* message={"role": "user", ...} *)
| OtherEvent (v : pyval).                  (* event=v *)

Definition encode_part (p : part) : pyval :=
  match p with
  | TextPart t => PDict [("text", t)]
  | StructuredPart j => PDict [("json", j)]
  end.

Definition opt_field (k : string) (v : option pyval) : dict :=
  match v with Some x => [(k, x)] | None => [] end.

Definition encode_parts (c : option (list part)) : option pyval :=
  match c with
  | Some ps => Some (PList (map encode_part ps))
  | None => None
  end.

Definition encode_element (e : element) : pyval :=
  match e with
  | EText t => PDict [("text", t)]
  | EToolUse n i id =>
      PDict [("toolUse", PDict [("name", n); ("input", i); ("toolUseId", id)])]
  | EToolResult st c =>
      PDict [("toolResult",
              PDict (opt_field "status" st ++ opt_field "content" (encode_parts c)))]
  end.

Definition encode_message (r : string) (els : list element) : pyval :=
  PDict [("role", PStr r); ("content", PList (map encode_element els))].

Definition encode (ev : event) : dict :=
  match ev with
  | TextDelta d => [("data", PStr d)]
  | ToolFragment f => [("current_tool_use", f)]
  | AssistantMessage els => [("message", encode_message "assistant" els)]
  | UserMessage els => [("message", encode_message "user" els)]
  | OtherEvent v => [("event", v)]
  end.

(** The flow items an event stands for, after section 4.1 of the
    specification: an assistant message gives one text chunk per text
    element and one tool call per tool invocation, a user message one
    tool result per tool-result element, anything else nothing. *)
Definition stored_result (st : option pyval) (c : option (list part)) : pyval :=
  result_info (match st with Some x => x | None => PNone end)
              (match encode_parts c with Some x => x | None => PList [] end).

Definition assistant_items (e : element) : list pyval :=
  match e with
  | EText t => [TextChunk t]
  | EToolUse n i id => [ToolCall (tool_info n i id)]
  | EToolResult _ _ => []
  end.

Definition user_items (e : element) : list pyval :=
  match e with
  | EToolResult st c => [ToolResult (stored_result st c)]
  | _ => []
  end.

Definition flow_items (ev : event) : list pyval :=
  match ev with
  | AssistantMessage els => flat_map assistant_items els
  | UserMessage els => flat_map user_items els
  | _ => []
  end.

(** The flow log filtered to one variant, keeping the payload. *)
Definition payload_of (variant key : string) (item : pyval) : list pyval :=
  match py_getitem item "type" with
  | Ok t => if py_eq_str t variant
            then match py_getitem item key with Ok x => [x] | Raise _ => [] end
            else []
  | Raise _ => []
  end.

Definition calls_of (flow : list pyval) : list pyval :=
  flat_map (payload_of "tool_call" "tool") flow.

Definition results_of (flow : list pyval) : list pyval :=
  flat_map (payload_of "tool_result" "result") flow.

(** Feeding a sequence of events to the callback, as the agent does. *)
Definition feed (evs : list dict) : M unit := for_each evs callback_handler.

(** ** What a callback may add to the buffers

    Every change the callback makes to the three list buffers is one of
    three kinds: a text chunk on the flow log, a tool call on the flow log
    and on the tool-call list, a tool result on the flow log and on the
    tool-result list. [update] writes a state as an earlier state [s0] to
    which a sequence of such additions was applied, with the display and
    the two text buffers replaced. *)

Inductive addition : Type :=
| AText (c : pyval)
| ACall (t : pyval)
| AResult (r : pyval).

Definition push (l : loc) (v : pyval) (h : list (list pyval))
  : list (list pyval) :=
  <[l := deref h l ++ [v]]> h.

Definition heap_add (f t r : loc) (h : list (list pyval)) (a : addition)
  : list (list pyval) :=
  match a with
  | AText c => push f (TextChunk c) h
  | ACall ti => push t ti (push f (ToolCall ti) h)
  | AResult ri => push r ri (push f (ToolResult ri) h)
  end.

Definition heap_after (s0 : session_state) (adds : list addition)
  : list (list pyval) :=
  fold_left (heap_add (conversation_flow s0) (current_message_tools s0)
                      (current_message_results s0)) adds (heap s0).

Definition update (d : list widget) (a b : string) (adds : list addition)
    (s0 : session_state) : session_state :=
  SessionState (heap_after s0 adds) d (messages s0) (file_uploader_key s0)
    a (current_message_tools s0) (current_message_results s0)
    (current_message_accumulated s0) b (conversation_flow s0).

Definition added_flow (a : addition) : list pyval :=
  match a with
  | AText c => [TextChunk c]
  | ACall t => [ToolCall t]
  | AResult r => [ToolResult r]
  end.

Definition added_call (a : addition) : list pyval :=
  match a with ACall t => [t] | _ => [] end.

Definition added_result (a : addition) : list pyval :=
  match a with AResult r => [r] | _ => [] end.

(** The three buffers are distinct list objects of the heap. *)
Definition wf_buffers (s : session_state) : Prop :=
  conversation_flow s < length (heap s) /\
  current_message_tools s < length (heap s) /\
  current_message_results s < length (heap s) /\
  conversation_flow s <> current_message_tools s /\
  conversation_flow s <> current_message_results s /\
  current_message_tools s <> current_message_results s.

(** A computation that only shows widgets and adds to the buffers. *)
Definition tracked {A} (c : M A) : Prop :=
  forall s0 d a b adds, exists r w more,
    c (update d a b adds s0) = (r, update (d ++ w) a b (adds ++ more) s0).

(** The text delta an event carries, when the callback takes the event
    for a text delta (line 48) and the delta is a string. *)
Definition text_delta (kwargs : dict) : option string :=
  if has_data kwargs then
    match assoc "data" kwargs with
    | Some (PStr d) => Some d
    | _ => None
    end
  else None.

Definition text_deltas (evs : list dict) : list string :=
  flat_map (fun kw => match text_delta kw with Some d => [d] | None => [] end) evs.

(** Concatenation of text chunks in order. *)
Definition join (ds : list string) : string :=
  fold_right String.append "" ds.

(** A computation that returns [x] without raising, shows the widgets
    [w] and makes the additions [more]. *)
Definition runs {A} (c : M A) (x : A) (w : list widget)
    (more : list addition) : Prop :=
  forall s0 d a b adds,
    c (update d a b adds s0) = (Ok x, update (d ++ w) a b (adds ++ more) s0).

(** The additions a typed event stands for, and the text it carries. *)
Definition assistant_adds (e : element) : list addition :=
  match e with
  | EText t => [AText t]
  | EToolUse n i id => [ACall (tool_info n i id)]
  | EToolResult _ _ => []
  end.

Definition user_adds (e : element) : list addition :=
  match e with
  | EToolResult st c => [AResult (stored_result st c)]
  | _ => []
  end.

Definition typed_adds (ev : event) : list addition :=
  match ev with
  | AssistantMessage els => flat_map assistant_adds els
  | UserMessage els => flat_map user_adds els
  | _ => []
  end.

Definition typed_text (ev : event) : string :=
  match ev with
  | TextDelta d => d
  | _ => ""
  end.

(** What the page shows for the parts of a result's content. *)
Definition part_widget (p : part) : widget :=
  match p with
  | TextPart t => Code t
  | StructuredPart j => Json j
  end.

(** ** Turns

    A transcript entry with its lists read from the heap: what a reader
    of [st.session_state.messages] sees. A list field is [None] when the
    key is missing from the stored dict. *)
Record turn : Type := Turn {
  turn_role : string;
  display_text : string;
  flow : option (list pyval);
  turn_tool_calls : option (list pyval);
  turn_tool_results : option (list pyval)
}.

Definition view_turn (h : list (list pyval)) (m : message) : turn :=
  Turn (role m) (content m)
       (option_map (deref h) (m_conversation_flow m))
       (option_map (deref h) (m_tools m))
       (option_map (deref h) (m_results m)).

Definition transcript (s : session_state) : list turn :=
  map (view_turn (heap s)) (messages s).

Definition last_turn (s : session_state) : option turn :=
  match rev (messages s) with
  | m :: _ => Some (view_turn (heap s) m)
  | [] => None
  end.

(** A list as stored under an optional key: left out when empty. *)
Definition if_nonempty (xs : list pyval) : option (list pyval) :=
  match xs with [] => None | _ => Some xs end.

(** The addresses a transcript entry refers to. *)
Definition message_locs (m : message) : list loc :=
  match m_conversation_flow m with Some l => [l] | None => [] end ++
  match m_tools m with Some l => [l] | None => [] end ++
  match m_results m with Some l => [l] | None => [] end.

(** ** The scenario of section 8 of the specification *)

Definition scenario : list dict :=
  [ [("data", PStr "Let me check ")];
    [("data", PStr "that.")];
    [("message",
      PDict [("role", PStr "assistant");
             ("content",
              PList [PDict [("text", PStr "Let me check that.")];
                     PDict [("toolUse",
                             PDict [("name", PStr "calculator");
                                    ("input", PDict [("expr", PStr "2+2")]);
                                    ("toolUseId", PStr "t1")])]])])];
    [("message",
      PDict [("role", PStr "user");
             ("content",
              PList [PDict [("toolResult",
                             PDict [("status", PStr "success");
                                    ("content",
                                     PList [PDict [("text", PStr "4")]])])]])])] ].

Definition scenario_call : pyval :=
  tool_info (PStr "calculator") (PDict [("expr", PStr "2+2")]) (PStr "t1").

Definition scenario_result : pyval :=
  result_info (PStr "success") (PList [PDict [("text", PStr "4")]]).



(** An assistant message whose tool use has no ["name"]. *)
Definition tool_use_without_name : dict :=
  [("message",
    PDict [("role", PStr "assistant");
           ("content",
            PList [PDict [("toolUse",
                           PDict [("input", PDict [("expr", PStr "2+2")]);
                                  ("toolUseId", PStr "t1")])]])])].

(** An event with an empty text delta and a completed message. *)
Definition empty_delta_with_message : dict :=
  [("data", PStr "");
   ("message",
    PDict [("role", PStr "assistant");
           ("content", PList [PDict [("text", PStr "y")]])])].



Definition replay_badge (status : pyval) : widget :=
  if py_eq_str status "success" then SuccessBadge else ErrorBadge status.




(** A computation that only shows widgets: the display grows at its end
    and nothing else changes, whether it returns or raises. *)
Definition shows {A} (c : M A) : Prop :=
  forall s, exists r w, c s = (r, set_display (display s ++ w) s).

(** ** Legacy turns

    A stored tool call and a stored tool result of the documented shapes,
    what the replay shows for each, and the grouping the specification
    gives for a turn without a flow log: the text, then the tool calls,
    then the tool results. *)
Definition stored_call (t : pyval * pyval * pyval) : pyval :=
  let '(n, i, id) := t in tool_info n i id.

Definition stored_parts_result (r : pyval * list part) : pyval :=
  let '(st, ps) := r in result_info st (PList (map encode_part ps)).

Definition call_widgets (t : pyval * pyval * pyval) : list widget :=
  let '(n, i, _) := t in
  [ToolCallBadge n; ExpanderOpen "Tool Input" false; Json i; ExpanderClose].

Definition result_widgets (r : pyval * list part) : list widget :=
  let '(st, ps) := r in
  replay_badge st :: ExpanderOpen "Tool Result" false ::
    map part_widget ps ++ [ExpanderClose].

Definition legacy_rendering (text : string)
    (calls : list (pyval * pyval * pyval))
    (results : list (pyval * list part)) : list widget :=
  (if negb (String.eqb text "") then [Write (PStr text)] else []) ++
  flat_map call_widgets calls ++ flat_map result_widgets results.

(** The list stored under an optional key. *)
Definition stored_list (h : list (list pyval)) (l : option loc) : list pyval :=
  match l with Some x => deref h x | None => [] end.

(** What [copy_if_nonempty] adds to a heap [h] for the list at [l]: the
    address stored under the optional key and the new list objects. *)
Definition copied (h : list (list pyval)) (l : loc)
  : option loc * list (list pyval) :=
  match deref h l with
  | [] => (None, [])
  | xs => (Some (length h), [xs])
  end.

(** The text deltas among the events of a run, in arrival order. *)
Definition received_deltas (tevs : list event) : list string :=
  flat_map (fun ev => match ev with TextDelta d => [d] | _ => [] end) tevs.


(** ** Sessions

    What happens to a session between two runs of the page: a submission
    through the chat input, a replay of the transcript, the "clear
    history" button; also, on their own, one call of the callback and one
    reset of the buffers. A raise ends the action and leaves the session
    state as it is at that point. *)
Inductive action : Type :=
| Submit (prompt : string) (uploaded_file_paths : list string)
         (agent : string -> agent_run)
| Replay
| ClearHistory
| Callback (kwargs : dict)
| ResetBuffers.

Definition perform (a : action) : M unit :=
  match a with
  | Submit prompt paths agent => chat_input prompt paths agent
  | Replay => display_chat_messages
  | ClearHistory => clear_chat_history
  | Callback kwargs => callback_handler kwargs
  | ResetBuffers => reset
  end.

Definition run (acts : list action) (s : session_state) : session_state :=
  fold_left (fun s' a => exec (perform a) s') acts s.

(** An address of the heap that is none of the three buffers. *)
Definition frozen (s : session_state) (l : loc) : Prop :=
  l < length (heap s) /\ l <> conversation_flow s /\
  l <> current_message_tools s /\ l <> current_message_results s.

(** The lists of the stored turns are list objects of the heap other than
    the buffers. *)
Definition wf_session (s : session_state) : Prop :=
  wf_buffers s /\
  forall m l, In m (messages s) -> In l (message_locs m) -> frozen s l.

(** [s'] comes after [s]: the heap did not shrink, and every list object
    that was not a buffer in [s] is not a buffer in [s'] and holds what it
    held. *)
Definition later (s s' : session_state) : Prop :=
  length (heap s) <= length (heap s') /\
  forall l, frozen s l -> frozen s' l /\ deref (heap s') l = deref (heap s) l.

(** ** Chat statistics (lines 340-346) *)

Definition user_messages (s : session_state) : nat :=
  length (List.filter (fun m => String.eqb (role m) "user") (messages s)).

Definition assistant_messages (s : session_state) : nat :=
  length (List.filter (fun m => String.eqb (role m) "assistant") (messages s)).

(** [sum(len(m.get("tools", [])) for m in messages)] *)
Definition total_tools (s : session_state) : nat :=
  list_sum (map (fun m => length (stored_list (heap s) (m_tools m)))
                (messages s)).

(** A turn as the page stores it: a user turn without lists, or an
    assistant turn with a flow log whose two lists, when stored, are the
    flow log filtered to the variant. *)
Definition stored_turn (t : turn) : Prop :=
  (turn_role t = "user" /\ flow t = None /\
   turn_tool_calls t = None /\ turn_tool_results t = None) \/
  (turn_role t = "assistant" /\
   exists fl, flow t = Some fl /\
              turn_tool_calls t = if_nonempty (calls_of fl) /\
              turn_tool_results t = if_nonempty (results_of fl)).

(** What holds of every session the page can reach. *)
Definition coherent (s : session_state) : Prop :=
  wf_session s /\
  tool_calls s = calls_of (flow_log s) /\
  tool_results s = results_of (flow_log s) /\
  accumulated_text s = all_agent_text s /\
  current_message_accumulated s = "" /\
  (forall m, In m (messages s) -> stored_turn (view_turn (heap s) m)) /\
  assistant_messages s <= user_messages s.

(** The three metrics of the sidebar, shown when the transcript is not
    empty (lines 340-349). *)
Definition chat_stats (s : session_state) : option (nat * nat * nat) :=
  match messages s with
  | [] => None
  | _ :: _ => Some (user_messages s, assistant_messages s, total_tools s)
  end.

(** An agent that calls one tool and returns. *)
Definition listing_agent (prompt : string) : agent_run :=
  AgentRun
    [[("message",
       encode_message "assistant"
         [EToolUse (PStr "ls") (PDict []) (PStr "t1")])]]
    (Ok "done").

(** The tool calls in the flow log of a turn. *)
Definition turn_calls (t : turn) : list pyval :=
  calls_of (match flow t with Some fl => fl | None => [] end).

(** ** What the replay of a flow log shows *)

Definition assistant_replay (e : element) : list widget :=
  match e with
  | EText t => [Write t]
  | EToolUse n i id => call_widgets (n, i, id)
  | EToolResult _ _ => []
  end.

Definition user_replay (e : element) : list widget :=
  match e with
  | EToolResult st c =>
      result_widgets (match st with Some x => x | None => PNone end,
                      match c with Some ps => ps | None => [] end)
  | _ => []
  end.

Definition event_replay (ev : event) : list widget :=
  match ev with
  | AssistantMessage els => flat_map assistant_replay els
  | UserMessage els => flat_map user_replay els
  | _ => []
  end.

(** ** What a submission shows *)

(** The upload notice and the bubble of the user (lines 242, 250-253). *)
Definition user_bubble (prompt : string) (uploaded_file_paths : list string)
  : list widget :=
  match uploaded_file_paths with
  | [] => [ChatMessageOpen "user"; Write (PStr prompt); ChatMessageClose]
  | _ :: _ =>
      [UploadedBadge (length uploaded_file_paths); ChatMessageOpen "user";
       Write (PStr prompt); FilesCaption uploaded_file_paths; ChatMessageClose]
  end.

(** The end of the assistant bubble (lines 266-271) when the agent call
    returns, and when it raises. *)
Definition closing (text : string) : list widget :=
  SpinnerClose ::
  (if String.eqb text "" then [] else [Write (PStr text)]) ++
  [ChatMessageClose].

Definition closing_after {A} (r : result A) (text : string) : list widget :=
  match r with
  | Ok _ => closing text
  | Raise _ => [SpinnerClose; ChatMessageClose]
  end.

(** What the callback shows for a tool result of the documented shape
    while the turn runs (lines 112-129), and for an event. *)
Definition error_details (c : option (list part)) : list widget :=
  match c with
  | Some ps =>
      [ExpanderOpen "Error Details" true;
       CodeStr (PList (map encode_part ps)); ExpanderClose]
  | None => []
  end.

Definition result_live (st : option pyval) (c : option (list part))
  : list widget :=
  if py_eq_str (match st with Some x => x | None => PNone end) "success" then
    SuccessBadge ::
    match c with
    | Some (p :: ps) =>
        ExpanderOpen "Tool Result" true ::
        map part_widget (p :: ps) ++ [ExpanderClose]
    | _ => []
    end
  else
    ErrorBadge (match st with Some x => x | None => PStr "Failed" end) ::
    error_details c.

Definition user_live (e : element) : list widget :=
  match e with
  | EToolResult st c => result_live st c
  | _ => []
  end.

Definition event_live (ev : event) : list widget :=
  match ev with
  | AssistantMessage els => flat_map assistant_replay els
  | UserMessage els => flat_map user_live els
  | _ => []
  end.

(** * Properties *)

(** ** Basic facts about the heap *)

Lemma deref_push_eq (l : loc) (v : pyval) (h : list (list pyval)) :
  l < length h -> deref (push l v h) l = deref h l ++ [v].
Proof.
  intros Hl. unfold push, deref at 1.
  rewrite list_lookup_insert_eq by exact Hl. reflexivity.
Qed.

Lemma deref_push_ne (l l' : loc) (v : pyval) (h : list (list pyval)) :
  l <> l' -> deref (push l v h) l' = deref h l'.
Proof.
  intros Hne. unfold push, deref at 1.
  rewrite list_lookup_insert_ne by exact Hne. reflexivity.
Qed.

Lemma length_push (l : loc) (v : pyval) (h : list (list pyval)) :
  length (push l v h) = length h.
Proof. unfold push. apply length_insert. Qed.

Lemma length_heap_add f t r h a : length (heap_add f t r h a) = length h.
Proof. destruct a; simpl; rewrite ?length_push; reflexivity. Qed.

Lemma length_fold_heap_add f t r adds h :
  length (fold_left (heap_add f t r) adds h) = length h.
Proof.
  revert h. induction adds as [|a adds IH]; intros h; simpl.
  - reflexivity.
  - rewrite IH. apply length_heap_add.
Qed.

Lemma deref_heap_add_other f t r h a l :
  l <> f -> l <> t -> l <> r -> deref (heap_add f t r h a) l = deref h l.
Proof.
  intros Hf Ht Hr.
  destruct a; simpl; rewrite ?deref_push_ne by congruence; reflexivity.
Qed.

Lemma deref_fold_other f t r adds h l :
  l <> f -> l <> t -> l <> r ->
  deref (fold_left (heap_add f t r) adds h) l = deref h l.
Proof.
  intros Hf Ht Hr. revert h.
  induction adds as [|a adds IH]; intros h; simpl.
  - reflexivity.
  - rewrite IH. apply deref_heap_add_other; assumption.
Qed.

Section Buffers.
Variables f t r : loc.
Hypothesis Hft : f <> t.
Hypothesis Hfr : f <> r.
Hypothesis Htr : t <> r.

Lemma deref_fold_flow adds h :
  f < length h ->
  deref (fold_left (heap_add f t r) adds h) f
  = deref h f ++ flat_map added_flow adds.
Proof using Hft Hfr.
  revert h. induction adds as [|a adds IH]; intros h Hf; simpl.
  - rewrite app_nil_r. reflexivity.
  - rewrite IH by (rewrite length_heap_add; exact Hf).
    rewrite app_assoc. f_equal.
    destruct a; simpl;
      rewrite ?(deref_push_ne t f), ?(deref_push_ne r f) by congruence;
      apply deref_push_eq; exact Hf.
Qed.

Lemma deref_fold_tools adds h :
  t < length h ->
  deref (fold_left (heap_add f t r) adds h) t
  = deref h t ++ flat_map added_call adds.
Proof using Hft Htr.
  revert h. induction adds as [|a adds IH]; intros h Ht; simpl.
  - rewrite app_nil_r. reflexivity.
  - rewrite IH by (rewrite length_heap_add; exact Ht).
    rewrite app_assoc. f_equal.
    destruct a; simpl.
    + rewrite app_nil_r. apply deref_push_ne. exact Hft.
    + rewrite deref_push_eq by (rewrite length_push; exact Ht).
      rewrite deref_push_ne by exact Hft. reflexivity.
    + rewrite app_nil_r.
      rewrite !deref_push_ne by congruence. reflexivity.
Qed.

Lemma deref_fold_results adds h :
  r < length h ->
  deref (fold_left (heap_add f t r) adds h) r
  = deref h r ++ flat_map added_result adds.
Proof using Hfr Htr.
  revert h. induction adds as [|a adds IH]; intros h Hr; simpl.
  - rewrite app_nil_r. reflexivity.
  - rewrite IH by (rewrite length_heap_add; exact Hr).
    rewrite app_assoc. f_equal.
    destruct a; simpl.
    + rewrite app_nil_r. apply deref_push_ne. exact Hfr.
    + rewrite app_nil_r.
      rewrite !deref_push_ne by congruence. reflexivity.
    + rewrite deref_push_eq by (rewrite length_push; exact Hr).
      rewrite deref_push_ne by exact Hfr. reflexivity.
Qed.
End Buffers.

Lemma calls_of_added adds :
  calls_of (flat_map added_flow adds) = flat_map added_call adds.
Proof.
  unfold calls_of. induction adds as [|a adds IH]; simpl.
  - reflexivity.
  - rewrite flat_map_app, IH. destruct a; reflexivity.
Qed.

Lemma results_of_added adds :
  results_of (flat_map added_flow adds) = flat_map added_result adds.
Proof.
  unfold results_of. induction adds as [|a adds IH]; simpl.
  - reflexivity.
  - rewrite flat_map_app, IH. destruct a; reflexivity.
Qed.

Lemma update_id (s : session_state) :
  update (display s) (accumulated_text s) (all_agent_text s) [] s = s.
Proof. destruct s; reflexivity. Qed.

(** ** Computations that only show widgets and add to the buffers *)

Lemma tracked_ret {A} (x : A) : tracked (ret x).
Proof.
  intros s0 d a b adds. exists (Ok x), [], [].
  rewrite !app_nil_r. reflexivity.
Qed.

Lemma tracked_lift {A} (r : result A) : tracked (lift r).
Proof.
  intros s0 d a b adds. exists r, [], [].
  rewrite !app_nil_r. reflexivity.
Qed.

Lemma tracked_show (w : widget) : tracked (show w).
Proof.
  intros s0 d a b adds. exists (Ok tt), [w], [].
  rewrite app_nil_r. reflexivity.
Qed.

Lemma tracked_bind {A B} (c : M A) (k : A -> M B) :
  tracked c -> (forall x, tracked (k x)) -> tracked (bind c k).
Proof.
  intros Hc Hk s0 d a b adds.
  destruct (Hc s0 d a b adds) as (r & w1 & more1 & E1).
  unfold bind. rewrite E1. destruct r as [x|e].
  - destruct (Hk x s0 (d ++ w1) a b (adds ++ more1)) as (r2 & w2 & more2 & E2).
    exists r2, (w1 ++ w2), (more1 ++ more2). rewrite E2, !app_assoc. reflexivity.
  - exists (Raise e), w1, more1. reflexivity.
Qed.

Lemma tracked_get {A} (k : session_state -> M A) :
  (forall s, tracked (k s)) -> tracked (bind get k).
Proof.
  intros Hk s0 d a b adds. unfold bind, get.
  apply (Hk (update d a b adds s0)).
Qed.

Lemma tracked_for_each {A} (xs : list A) (body : A -> M unit) :
  (forall x, tracked (body x)) -> tracked (for_each xs body).
Proof.
  intros Hb. induction xs as [|x xs IH]; simpl.
  - apply tracked_ret.
  - apply tracked_bind; [apply Hb | intros _; exact IH].
Qed.

Lemma heap_after_snoc s0 adds x :
  heap_after s0 (adds ++ [x])
  = heap_add (conversation_flow s0) (current_message_tools s0)
             (current_message_results s0) (heap_after s0 adds) x.
Proof. unfold heap_after. rewrite fold_left_app. reflexivity. Qed.

Lemma add_text_update c s0 d a b adds :
  flow_append (TextChunk c) (update d a b adds s0)
  = (Ok tt, update d a b (adds ++ [AText c]) s0).
Proof. unfold update. rewrite heap_after_snoc. reflexivity. Qed.

Lemma add_call_update ti s0 d a b adds :
  (flow_append (ToolCall ti) ;; tools_append ti) (update d a b adds s0)
  = (Ok tt, update d a b (adds ++ [ACall ti]) s0).
Proof. unfold update. rewrite heap_after_snoc. reflexivity. Qed.

Lemma add_result_update ri s0 d a b adds :
  (flow_append (ToolResult ri) ;; results_append ri) (update d a b adds s0)
  = (Ok tt, update d a b (adds ++ [AResult ri]) s0).
Proof. unfold update. rewrite heap_after_snoc. reflexivity. Qed.

Lemma tracked_add_text c : tracked (flow_append (TextChunk c)).
Proof.
  intros s0 d a b adds. exists (Ok tt), [], [AText c].
  rewrite app_nil_r. apply add_text_update.
Qed.

Lemma tracked_add_call ti :
  tracked (flow_append (ToolCall ti) ;; tools_append ti).
Proof.
  intros s0 d a b adds. exists (Ok tt), [], [ACall ti].
  rewrite app_nil_r. apply add_call_update.
Qed.

Lemma tracked_add_result ri :
  tracked (flow_append (ToolResult ri) ;; results_append ri).
Proof.
  intros s0 d a b adds. exists (Ok tt), [], [AResult ri].
  rewrite app_nil_r. apply add_result_update.
Qed.

Lemma tracked_exiting {A} (close : widget) (body : M A) :
  tracked body -> tracked (exiting close body).
Proof.
  intros H s0 d a b adds.
  destruct (H s0 d a b adds) as (r & w & more & E).
  exists r, (w ++ [close]), more. unfold exiting. rewrite E.
  unfold update, set_display. cbn. rewrite app_assoc. reflexivity.
Qed.

Lemma tracked_within {A} (open close : widget) (body : M A) :
  tracked body -> tracked (within open close body).
Proof.
  intros H. unfold within.
  apply tracked_bind; [apply tracked_show | intros _].
  apply tracked_exiting, H.
Qed.

Ltac tracked_step :=
  lazymatch goal with
  | |- tracked (within _ _ _) => apply tracked_within
  | |- tracked (flow_append (TextChunk ?c)) => exact (tracked_add_text c)
  | |- tracked (bind (flow_append (ToolCall ?t)) (fun _ => tools_append ?t)) =>
      exact (tracked_add_call t)
  | |- tracked (bind (flow_append (ToolResult ?r)) (fun _ => results_append ?r)) =>
      exact (tracked_add_result r)
  | |- tracked (bind _ _) => apply tracked_bind; [ | intros ? ]
  | |- tracked (ret _) => apply tracked_ret
  | |- tracked (lift _) => apply tracked_lift
  | |- tracked (show _) => apply tracked_show
  | |- tracked (for_each _ _) => apply tracked_for_each; intros ?
  | |- tracked (if ?c then _ else _) => destruct c
  | |- tracked (match ?c with _ => _ end) => destruct c
  end.

Lemma tracked_show_part item : tracked (show_part item).
Proof. unfold show_part. repeat tracked_step. Qed.

Lemma tracked_assistant_content content : tracked (assistant_content content).
Proof. unfold assistant_content. repeat tracked_step. Qed.

Lemma tracked_show_result_live result : tracked (show_result_live result).
Proof.
  unfold show_result_live.
  repeat first [ apply tracked_show_part | tracked_step ].
Qed.

Lemma tracked_user_content content : tracked (user_content content).
Proof.
  unfold user_content.
  repeat first [ apply tracked_show_result_live | tracked_step ].
Qed.

Lemma tracked_handle_message message : tracked (handle_message message).
Proof.
  unfold handle_message.
  repeat first [ apply tracked_assistant_content
               | apply tracked_user_content | tracked_step ].
Qed.

(** ** Computations that run to completion *)

Lemma runs_ret {A} (x : A) : runs (ret x) x [] [].
Proof. intros s0 d a b adds. rewrite !app_nil_r. reflexivity. Qed.

Lemma runs_lift {A} (x : A) : runs (lift (Ok x)) x [] [].
Proof. intros s0 d a b adds. rewrite !app_nil_r. reflexivity. Qed.

Lemma runs_show (w : widget) : runs (show w) tt [w] [].
Proof. intros s0 d a b adds. rewrite !app_nil_r. reflexivity. Qed.

Lemma runs_bind {A B} (c : M A) (k : A -> M B) x y w1 w2 m1 m2 :
  runs c x w1 m1 -> runs (k x) y w2 m2 -> runs (bind c k) y (w1 ++ w2) (m1 ++ m2).
Proof.
  intros Hc Hk s0 d a b adds. unfold bind.
  rewrite Hc, Hk, !app_assoc. reflexivity.
Qed.

Lemma runs_eq {A} (c : M A) x w w' m m' :
  runs c x w m -> w = w' -> m = m' -> runs c x w' m'.
Proof. intros H -> ->. exact H. Qed.

Lemma runs_add_text c : runs (flow_append (TextChunk c)) tt [] [AText c].
Proof.
  intros s0 d a b adds. rewrite app_nil_r. apply add_text_update.
Qed.

Lemma runs_add_call ti :
  runs (flow_append (ToolCall ti) ;; tools_append ti) tt [] [ACall ti].
Proof.
  intros s0 d a b adds. rewrite app_nil_r. apply add_call_update.
Qed.

Lemma runs_add_result ri :
  runs (flow_append (ToolResult ri) ;; results_append ri) tt [] [AResult ri].
Proof.
  intros s0 d a b adds. rewrite app_nil_r. apply add_result_update.
Qed.

Lemma runs_for_each {A} (xs : list A) (body : A -> M unit)
    (w : A -> list widget) (m : A -> list addition) :
  (forall x, runs (body x) tt (w x) (m x)) ->
  runs (for_each xs body) tt (flat_map w xs) (flat_map m xs).
Proof.
  intros Hb. induction xs as [|x xs IH]; simpl.
  - apply runs_ret.
  - eapply runs_bind; [apply Hb | exact IH].
Qed.

Lemma runs_exiting {A} (close : widget) (body : M A) x w m :
  runs body x w m -> runs (exiting close body) x (w ++ [close]) m.
Proof.
  intros H s0 d a b adds. unfold exiting. rewrite H.
  unfold update, set_display. cbn. rewrite app_assoc. reflexivity.
Qed.

Lemma runs_within {A} (open close : widget) (body : M A) x w m :
  runs body x w m -> runs (within open close body) x (open :: w ++ [close]) m.
Proof.
  intros H. unfold within. eapply runs_eq.
  - eapply runs_bind; [apply runs_show | apply runs_exiting, H].
  - reflexivity.
  - reflexivity.
Qed.

Ltac runs_step :=
  lazymatch goal with
  | |- runs (within _ _ _) _ _ _ => eapply runs_within
  | |- runs (flow_append (TextChunk ?c)) _ _ _ => exact (runs_add_text c)
  | |- runs (bind (flow_append (ToolCall ?t)) (fun _ => tools_append ?t)) _ _ _ =>
      exact (runs_add_call t)
  | |- runs (bind (flow_append (ToolResult ?r)) (fun _ => results_append ?r)) _ _ _ =>
      exact (runs_add_result r)
  | |- runs (bind _ _) _ _ _ => eapply runs_bind
  | |- runs (ret _) _ _ _ => apply runs_ret
  | |- runs (lift _) _ _ _ => apply runs_lift
  | |- runs (show _) _ _ _ => apply runs_show
  | |- runs (if _ then _ else _) _ _ _ => cbn
  | |- runs (match _ with _ => _ end) _ _ _ => cbn
  end.

Lemma runs_show_part (p : part) :
  runs (show_part (encode_part p)) tt [part_widget p] [].
Proof.
  destruct p; unfold show_part; cbn;
    (eapply runs_eq; [ repeat runs_step | reflexivity | reflexivity ]).
Qed.

Lemma runs_show_parts (ps : list part) :
  runs (for_each (map encode_part ps) show_part) tt (map part_widget ps) [].
Proof.
  induction ps as [|p ps IH]; simpl.
  - apply runs_ret.
  - eapply runs_eq.
    + eapply runs_bind; [apply runs_show_part | exact IH].
    + reflexivity.
    + reflexivity.
Qed.

Ltac runs_more :=
  lazymatch goal with
  | |- runs (for_each (encode_part ?p :: map encode_part ?ps) show_part) _ _ _ =>
      exact (runs_show_parts (p :: ps))
  | |- runs (for_each (map encode_part ?ps) show_part) _ _ _ =>
      exact (runs_show_parts ps)
  | H : ?c = _ |- runs (if ?c then _ else _) _ _ _ => rewrite H
  | |- _ => runs_step
  end.

Lemma runs_show_result_live st c :
  exists w,
    runs (show_result_live
            (PDict (opt_field "status" st ++ opt_field "content" (encode_parts c))))
         tt w [].
Proof.
  destruct st as [v|]; [destruct (py_eq_str v "success") eqn:E|];
    destruct c as [[|p ps]|]; unfold show_result_live; cbn;
    eexists; (eapply runs_eq; [ repeat runs_more | reflexivity | reflexivity ]).
Qed.

Lemma runs_assistant_content (e : element) :
  exists w, runs (assistant_content (encode_element e)) tt w (assistant_adds e).
Proof.
  destruct e; unfold assistant_content; cbn;
    eexists; (eapply runs_eq; [ repeat runs_more | reflexivity | reflexivity ]).
Qed.

Lemma runs_user_content (e : element) :
  exists w, runs (user_content (encode_element e)) tt w (user_adds e).
Proof.
  destruct e as [t|n i id|st c]; unfold user_content; cbn.
  - eexists. eapply runs_eq; [ repeat runs_more | reflexivity | reflexivity ].
  - eexists. eapply runs_eq; [ repeat runs_more | reflexivity | reflexivity ].
  - destruct (runs_show_result_live st c) as [w Hw].
    eexists. eapply runs_eq.
    + eapply runs_bind; [apply runs_lift|]. cbn.
      eapply runs_bind; [apply runs_lift|].
      eapply runs_bind; [apply runs_lift|].
      eapply runs_bind; [apply runs_lift|].
      eapply runs_bind; [exact Hw|].
      apply runs_add_result.
    + reflexivity.
    + destruct st, c; reflexivity.
Qed.

Lemma runs_assistant_elements (els : list element) :
  exists w,
    runs (for_each (map encode_element els) assistant_content) tt w
         (flat_map assistant_adds els).
Proof.
  induction els as [|e els [w IH]]; simpl.
  - eexists. apply runs_ret.
  - destruct (runs_assistant_content e) as [we He]. eexists.
    eapply runs_bind; [exact He | exact IH].
Qed.

Lemma runs_user_elements (els : list element) :
  exists w,
    runs (for_each (map encode_element els) user_content) tt w
         (flat_map user_adds els).
Proof.
  induction els as [|e els [w IH]]; simpl.
  - eexists. apply runs_ret.
  - destruct (runs_user_content e) as [we He]. eexists.
    eapply runs_bind; [exact He | exact IH].
Qed.

Lemma runs_handle_message_assistant (els : list element) :
  exists w,
    runs (handle_message (encode_message "assistant" els)) tt w
         (flat_map assistant_adds els).
Proof.
  destruct (runs_assistant_elements els) as [w Hw].
  eexists. unfold handle_message. cbn. eapply runs_eq.
  - eapply runs_bind; [apply runs_lift|]. cbn.
    eapply runs_bind; [apply runs_lift|]. cbn.
    eapply runs_bind; [apply runs_lift|].
    eapply runs_bind; [apply runs_lift|].
    exact Hw.
  - reflexivity.
  - reflexivity.
Qed.

Lemma runs_handle_message_user (els : list element) :
  exists w,
    runs (handle_message (encode_message "user" els)) tt w
         (flat_map user_adds els).
Proof.
  destruct (runs_user_elements els) as [w Hw].
  eexists. unfold handle_message. cbn. eapply runs_eq.
  - eapply runs_bind; [apply runs_lift|]. cbn.
    eapply runs_bind; [apply runs_ret|]. cbn.
    eapply runs_bind; [apply runs_lift|]. cbn.
    eapply runs_bind; [apply runs_lift|]. cbn.
    eapply runs_bind; [apply runs_lift|].
    eapply runs_bind; [apply runs_lift|].
    exact Hw.
  - reflexivity.
  - reflexivity.
Qed.

Lemma append_empty_r (a : string) : String.append a "" = a.
Proof. induction a as [|c a IH]; simpl; [reflexivity | rewrite IH; reflexivity]. Qed.

Lemma append_assoc_s (a b c : string) :
  String.append (String.append a b) c = String.append a (String.append b c).
Proof. induction a as [|x a IH]; simpl; [reflexivity | rewrite IH; reflexivity]. Qed.

(** *** What the callback shows for a documented event *)

Lemma runs_assistant_live (e : element) :
  runs (assistant_content (encode_element e)) tt (assistant_replay e)
       (assistant_adds e).
Proof.
  destruct e; unfold assistant_content; cbn;
    (eapply runs_eq; [ repeat runs_more | reflexivity | reflexivity ]).
Qed.

Lemma runs_assistant_elements_live (els : list element) :
  runs (for_each (map encode_element els) assistant_content) tt
       (flat_map assistant_replay els) (flat_map assistant_adds els).
Proof.
  induction els as [|e els IH]; simpl.
  - apply runs_ret.
  - eapply runs_bind; [apply runs_assistant_live | exact IH].
Qed.

Lemma runs_result_live st c :
  runs (show_result_live
          (PDict (opt_field "status" st ++ opt_field "content" (encode_parts c))))
       tt (result_live st c) [].
Proof.
  destruct st as [v|]; [destruct (py_eq_str v "success") eqn:E|];
    destruct c as [[|p ps]|]; unfold show_result_live, result_live; cbn;
    rewrite ?E;
    (eapply runs_eq; [ repeat runs_more | reflexivity | reflexivity ]).
Qed.

Lemma runs_user_live (e : element) :
  runs (user_content (encode_element e)) tt (user_live e) (user_adds e).
Proof.
  destruct e as [t|n i id|st c]; unfold user_content; cbn.
  - eapply runs_eq; [ repeat runs_more | reflexivity | reflexivity ].
  - eapply runs_eq; [ repeat runs_more | reflexivity | reflexivity ].
  - eapply runs_eq.
    + eapply runs_bind; [apply runs_lift|]. cbn.
      eapply runs_bind; [apply runs_lift|].
      eapply runs_bind; [apply runs_lift|].
      eapply runs_bind; [apply runs_lift|].
      eapply runs_bind; [apply runs_result_live|].
      apply runs_add_result.
    + cbn. apply app_nil_r.
    + destruct st, c; reflexivity.
Qed.

Lemma runs_user_elements_live (els : list element) :
  runs (for_each (map encode_element els) user_content) tt
       (flat_map user_live els) (flat_map user_adds els).
Proof.
  induction els as [|e els IH]; simpl.
  - apply runs_ret.
  - eapply runs_bind; [apply runs_user_live | exact IH].
Qed.

Lemma callback_handler_live (ev : event) s0 d a b adds :
  callback_handler (encode ev) (update d a b adds s0)
  = (Ok tt, update (d ++ event_live ev) (String.append a (typed_text ev))
                   (String.append b (typed_text ev))
                   (adds ++ typed_adds ev) s0).
Proof.
  destruct ev as [dl|f|els|els|v]; simpl typed_text; simpl typed_adds;
    simpl event_live; rewrite ?append_empty_r.
  - rewrite !app_nil_r. destruct dl as [|c dl].
    + rewrite !append_empty_r. reflexivity.
    + reflexivity.
  - rewrite !app_nil_r. reflexivity.
  - pose proof (runs_assistant_elements_live els) as Hw.
    unfold callback_handler, handle_message. cbn. apply Hw.
  - pose proof (runs_user_elements_live els) as Hw.
    unfold callback_handler, handle_message. cbn. apply Hw.
  - rewrite !app_nil_r. reflexivity.
Qed.

(** A typed event never makes the callback raise; it adds exactly the
    additions it stands for and the text it carries. *)
Lemma callback_handler_typed (ev : event) s0 d a b adds :
  exists w,
    callback_handler (encode ev) (update d a b adds s0)
    = (Ok tt, update (d ++ w) (String.append a (typed_text ev))
                     (String.append b (typed_text ev))
                     (adds ++ typed_adds ev) s0).
Proof.
  destruct ev as [dl|f|els|els|v]; simpl typed_text; simpl typed_adds;
    rewrite ?append_empty_r.
  - exists []. rewrite !app_nil_r. destruct dl as [|c dl].
    + rewrite !append_empty_r. reflexivity.
    + reflexivity.
  - exists []. rewrite !app_nil_r. reflexivity.
  - destruct (runs_handle_message_assistant els) as [w Hw].
    exists w. unfold callback_handler. cbn. apply Hw.
  - destruct (runs_handle_message_user els) as [w Hw].
    exists w. unfold callback_handler. cbn. apply Hw.
  - exists []. rewrite !app_nil_r. reflexivity.
Qed.

(** ** The callback on arbitrary keyword arguments *)

Lemma has_data_assoc kw :
  has_data kw = true -> exists v, assoc "data" kw = Some v /\ truthy v = true.
Proof.
  unfold has_data. destruct (assoc "data" kw) as [v|]; [|discriminate].
  intros H. exists v. split; [reflexivity | exact H].
Qed.

(** Whatever the event, the callback only shows widgets, adds to the
    buffers in the three permitted ways and extends both text buffers by
    the same string: the text delta when it returns, nothing when it
    raises. An event taken for a text delta adds nothing to the lists and
    shows nothing. *)
Lemma callback_handler_update (kw : dict) s0 d a b adds :
  exists r w g more,
    callback_handler kw (update d a b adds s0)
    = (r, update (d ++ w) (String.append a g) (String.append b g)
            (adds ++ more) s0)
    /\ (r = Ok tt ->
        g = match text_delta kw with Some t => t | None => "" end)
    /\ (has_data kw = true -> more = [] /\ w = []).
Proof.
  unfold callback_handler, text_delta.
  destruct (has_data kw) eqn:Hd.
  - destruct (has_data_assoc kw Hd) as (v & Hv & _).
    unfold bind, lift, get, py_getitem. rewrite Hv.
    destruct v; simpl.
    all: try (exists (Raise TypeError), [], "", [];
              rewrite !append_empty_r, !app_nil_r;
              split; [reflexivity | split; [discriminate | tauto]]).
    exists (Ok tt), [], s, []. rewrite !app_nil_r.
    split; [reflexivity | split; [reflexivity | tauto]].
  - destruct (dict_in "current_tool_use" kw).
    + exists (Ok tt), [], "", []. rewrite !append_empty_r, !app_nil_r.
      split; [reflexivity | split; [reflexivity | discriminate]].
    + destruct (dict_in "message" kw).
      * assert (T : tracked (message <- lift (py_getitem (PDict kw) "message") ;;
                             handle_message message)).
        { apply tracked_bind; [apply tracked_lift | intros m; apply tracked_handle_message]. }
        destruct (T s0 d a b adds) as (r & w & more & E).
        exists r, w, "", more. rewrite !append_empty_r.
        split; [exact E | split; [reflexivity | discriminate]].
      * exists (Ok tt), [], "", []. rewrite !append_empty_r, !app_nil_r.
        split; [reflexivity | split; [reflexivity | discriminate]].
Qed.

Lemma join_app (xs ys : list string) :
  join (xs ++ ys) = String.append (join xs) (join ys).
Proof.
  induction xs as [|x xs IH]; simpl; [reflexivity|].
  rewrite IH, append_assoc_s. reflexivity.
Qed.

Lemma feed_update (evs : list dict) s0 d a b adds :
  exists r w g more,
    feed evs (update d a b adds s0)
    = (r, update (d ++ w) (String.append a g) (String.append b g)
            (adds ++ more) s0)
    /\ (r = Ok tt -> g = join (text_deltas evs)).
Proof.
  revert d a b adds. induction evs as [|kw evs IH]; intros d a b adds.
  - exists (Ok tt), [], "", []. rewrite !append_empty_r, !app_nil_r.
    split; reflexivity.
  - destruct (callback_handler_update kw s0 d a b adds)
      as (r1 & w1 & g1 & more1 & E1 & G1 & _).
    unfold feed. simpl. unfold bind at 1. rewrite E1.
    destruct r1 as [[]|e].
    + destruct (IH (d ++ w1) (String.append a g1) (String.append b g1)
                  (adds ++ more1))
        as (r2 & w2 & g2 & more2 & E2 & G2).
      exists r2, (w1 ++ w2), (String.append g1 g2), (more1 ++ more2).
      unfold feed in E2. rewrite E2, !append_assoc_s, !app_assoc.
      split; [reflexivity|].
      intros Hr. rewrite (G1 eq_refl), (G2 Hr).
      unfold text_deltas. simpl. rewrite join_app.
      destruct (text_delta kw); simpl; rewrite ?append_empty_r; reflexivity.
    + exists (Raise e), w1, g1, more1.
      split; [reflexivity | discriminate].
Qed.

Lemma feed_typed (evs : list event) s0 d a b adds :
  exists w,
    feed (map encode evs) (update d a b adds s0)
    = (Ok tt, update (d ++ w)
                (String.append a (join (map typed_text evs)))
                (String.append b (join (map typed_text evs)))
                (adds ++ flat_map typed_adds evs) s0).
Proof.
  revert d a b adds. induction evs as [|ev evs IH]; intros d a b adds.
  - exists []. simpl. rewrite !append_empty_r, !app_nil_r. reflexivity.
  - destruct (callback_handler_typed ev s0 d a b adds) as [w1 E1].
    destruct (IH (d ++ w1) (String.append a (typed_text ev))
                 (String.append b (typed_text ev)) (adds ++ typed_adds ev))
      as [w2 E2].
    exists (w1 ++ w2). unfold feed in *. simpl. unfold bind at 1.
    rewrite E1, E2, !append_assoc_s, !app_assoc. reflexivity.
Qed.

Lemma feed_live (evs : list event) s0 d a b adds :
  feed (map encode evs) (update d a b adds s0)
  = (Ok tt, update (d ++ flat_map event_live evs)
              (String.append a (join (map typed_text evs)))
              (String.append b (join (map typed_text evs)))
              (adds ++ flat_map typed_adds evs) s0).
Proof.
  revert d a b adds. induction evs as [|ev evs IH]; intros d a b adds.
  - simpl. rewrite !append_empty_r, !app_nil_r. reflexivity.
  - unfold feed in *. simpl. unfold bind at 1.
    rewrite callback_handler_live, IH, !append_assoc_s, !app_assoc.
    reflexivity.
Qed.

Lemma join_received (tevs : list event) :
  join (map typed_text tevs) = join (received_deltas tevs).
Proof.
  unfold join. induction tevs as [|ev tevs IH]; [reflexivity|].
  change (received_deltas (ev :: tevs))
    with ((match ev with TextDelta d => [d] | _ => [] end) ++
          received_deltas tevs).
  cbn [map fold_right]. rewrite IH. destruct ev; reflexivity.
Qed.

Lemma for_each_app {A} (xs ys : list A) (body : A -> M unit) s :
  for_each (xs ++ ys) body s
  = match for_each xs body s with
    | (Ok _, s') => for_each ys body s'
    | (Raise e, s') => (Raise e, s')
    end.
Proof.
  revert s. induction xs as [|x xs IH]; intros s; simpl.
  - reflexivity.
  - unfold bind. destruct (body x s) as [[[]|e] s']; [apply IH | reflexivity].
Qed.

(** ** The buffers seen through [update] *)

Lemma flow_log_update s0 d a b adds :
  wf_buffers s0 ->
  flow_log (update d a b adds s0) = flow_log s0 ++ flat_map added_flow adds.
Proof.
  intros (Hf & Ht & Hr & Hft & Hfr & Htr).
  unfold flow_log, update, heap_after; simpl.
  apply deref_fold_flow; assumption.
Qed.

Lemma tool_calls_update s0 d a b adds :
  wf_buffers s0 ->
  tool_calls (update d a b adds s0) = tool_calls s0 ++ flat_map added_call adds.
Proof.
  intros (Hf & Ht & Hr & Hft & Hfr & Htr).
  unfold tool_calls, update, heap_after; simpl.
  apply deref_fold_tools; assumption.
Qed.

Lemma tool_results_update s0 d a b adds :
  wf_buffers s0 ->
  tool_results (update d a b adds s0)
  = tool_results s0 ++ flat_map added_result adds.
Proof.
  intros (Hf & Ht & Hr & Hft & Hfr & Htr).
  unfold tool_results, update, heap_after; simpl.
  apply deref_fold_results; assumption.
Qed.

Lemma added_flow_assistant els :
  flat_map added_flow (flat_map assistant_adds els) = flat_map assistant_items els.
Proof.
  induction els as [|e els IH]; simpl; [reflexivity|].
  rewrite flat_map_app, IH. destruct e; reflexivity.
Qed.

Lemma added_flow_user els :
  flat_map added_flow (flat_map user_adds els) = flat_map user_items els.
Proof.
  induction els as [|e els IH]; simpl; [reflexivity|].
  rewrite flat_map_app, IH. destruct e; reflexivity.
Qed.

Lemma added_flow_typed evs :
  flat_map added_flow (flat_map typed_adds evs) = flat_map flow_items evs.
Proof.
  induction evs as [|ev evs IH]; simpl; [reflexivity|].
  rewrite flat_map_app, IH. f_equal.
  destruct ev; simpl;
    [reflexivity | reflexivity | apply added_flow_assistant
    | apply added_flow_user | reflexivity].
Qed.

(** ** Resetting the buffers *)

Ltac unfold_setters :=
  cbv [set_heap set_display set_messages set_file_uploader_key
       set_accumulated_text set_current_message_tools
       set_current_message_results set_current_message_accumulated
       set_all_agent_text set_conversation_flow
       heap display messages file_uploader_key accumulated_text
       current_message_tools current_message_results
       current_message_accumulated all_agent_text conversation_flow] in *.

Lemma reset_eq s :
  reset s
  = (Ok tt,
     SessionState (((heap s ++ [[]]) ++ [[]]) ++ [[]]) (display s) (messages s)
       (file_uploader_key s) "" (length (heap s)) (S (length (heap s))) "" ""
       (S (S (length (heap s))))).
Proof.
  destruct s. unfold reset, bind, modify, alloc. cbn. unfold_setters.
  rewrite !length_app. cbn. do 2 f_equal; lia.
Qed.

Lemma reset_buffers s :
  let s' := exec reset s in
  wf_buffers s' /\ flow_log s' = [] /\ tool_calls s' = [] /\
  tool_results s' = [] /\ accumulated_text s' = "" /\ all_agent_text s' = "".
Proof.
  unfold exec. rewrite reset_eq. simpl.
  unfold wf_buffers, flow_log, tool_calls, tool_results, deref; simpl.
  rewrite !length_app; simpl.
  repeat split; try lia.
  - rewrite lookup_app_r by (rewrite !length_app; simpl; lia).
    rewrite !length_app; simpl.
    replace (S (S (length (heap s))) - (length (heap s) + 1 + 1)) with 0 by lia.
    reflexivity.
  - rewrite lookup_app_l by (rewrite !length_app; simpl; lia).
    rewrite lookup_app_l by (rewrite !length_app; simpl; lia).
    rewrite lookup_app_r by lia.
    replace (length (heap s) - length (heap s)) with 0 by lia. reflexivity.
  - rewrite lookup_app_l by (rewrite !length_app; simpl; lia).
    rewrite lookup_app_r by (rewrite !length_app; simpl; lia).
    rewrite !length_app; simpl.
    replace (S (length (heap s)) - (length (heap s) + 1)) with 0 by lia.
    reflexivity.
Qed.

Lemma exec_bind_ok {A B} (c : M A) (k : A -> M B) s x s' :
  c s = (Ok x, s') -> bind c k s = k x s'.
Proof. intros E. unfold bind. rewrite E. reflexivity. Qed.

Lemma reset_then {A} (c : M A) s : (reset ;; c) s = c (exec reset s).
Proof.
  unfold exec. rewrite (exec_bind_ok reset (fun _ => c) s tt (snd (reset s))).
  - reflexivity.
  - rewrite reset_eq. reflexivity.
Qed.

Lemma wf_buffers_update s0 d a b adds :
  wf_buffers s0 -> wf_buffers (update d a b adds s0).
Proof.
  unfold wf_buffers, update, heap_after; simpl.
  rewrite length_fold_heap_add. tauto.
Qed.

(** ** Flow order and the denormalized lists *)

(** Feeding events to the callback, from a state whose three buffers are
    distinct list objects: each list is extended by the additions made. *)
Lemma feed_views (evs : list dict) s :
  wf_buffers s ->
  exists adds,
    flow_log (exec (feed evs) s) = flow_log s ++ flat_map added_flow adds /\
    tool_calls (exec (feed evs) s) = tool_calls s ++ flat_map added_call adds /\
    tool_results (exec (feed evs) s)
    = tool_results s ++ flat_map added_result adds /\
    wf_buffers (exec (feed evs) s).
Proof.
  intros Hwf.
  destruct (feed_update evs s (display s) (accumulated_text s)
              (all_agent_text s) []) as (r & w & g & more & E & _).
  rewrite update_id in E. unfold exec. rewrite E. cbn [snd app].
  exists more.
  rewrite flow_log_update, tool_calls_update, tool_results_update by exact Hwf.
  split; [reflexivity|]. split; [reflexivity|]. split; [reflexivity|].
  apply wf_buffers_update. exact Hwf.
Qed.

Lemma feed_typed_views (tevs : list event) s :
  wf_buffers s ->
  let s' := exec (feed (map encode tevs)) s in
  eval (feed (map encode tevs)) s = Ok tt /\
  flow_log s' = flow_log s ++ flat_map flow_items tevs /\
  tool_calls s' = tool_calls s ++ calls_of (flat_map flow_items tevs) /\
  tool_results s' = tool_results s ++ results_of (flat_map flow_items tevs) /\
  all_agent_text s'
  = String.append (all_agent_text s) (join (map typed_text tevs)) /\
  wf_buffers s'.
Proof.
  intros Hwf. cbv zeta.
  destruct (feed_typed tevs s (display s) (accumulated_text s)
              (all_agent_text s) []) as [w E].
  rewrite update_id in E. unfold eval, exec. rewrite E. cbn [fst snd app].
  split; [reflexivity|].
  rewrite flow_log_update, tool_calls_update, tool_results_update by exact Hwf.
  rewrite <- added_flow_typed, calls_of_added, results_of_added.
  split; [reflexivity|]. split; [reflexivity|]. split; [reflexivity|].
  split; [reflexivity|]. apply wf_buffers_update. exact Hwf.
Qed.

Lemma exec_reset_then {A} (c : M A) s :
  exec (reset ;; c) s = exec c (exec reset s).
Proof. unfold exec at 1 2. rewrite reset_then. reflexivity. Qed.

Lemma eval_reset_then {A} (c : M A) s :
  eval (reset ;; c) s = eval c (exec reset s).
Proof. unfold eval. rewrite reset_then. reflexivity. Qed.

(** C1. After [reset()], whatever events are fed to the callback (also
    when one of them makes it raise): the tool-call list and the
    tool-result list are the flow log filtered to the tool-call and the
    tool-result variant, in order; feeding further events only appends to
    the flow log, so that nothing is reordered or dropped; and for events
    of the documented shapes the callback does not raise and the flow log
    is the concatenation, in arrival order, of the items of each event. *)
Theorem flow_log_arrival_order :
  forall (s0 : session_state) (evs evs' : list dict) (tevs : list event),
    let s := exec (reset ;; feed evs) s0 in
    tool_calls s = calls_of (flow_log s) /\
    tool_results s = results_of (flow_log s) /\
    (exists more,
        flow_log (exec (reset ;; feed (evs ++ evs')) s0) = flow_log s ++ more) /\
    eval (reset ;; feed (map encode tevs)) s0 = Ok tt /\
    flow_log (exec (reset ;; feed (map encode tevs)) s0)
    = flat_map flow_items tevs.
Proof.
  intros s0 evs evs' tevs. cbv zeta.
  rewrite !exec_reset_then, eval_reset_then.
  destruct (reset_buffers s0) as (Hwf & Hf & Ht & Hr & _).
  remember (exec reset s0) as s1 eqn:Hs1. clear Hs1.
  destruct (feed_views evs s1 Hwf) as (adds & Ef & Et & Er & Hwf').
  rewrite Ef, Et, Er, Hf, Ht, Hr. cbn [app].
  split; [symmetry; apply calls_of_added|].
  split; [symmetry; apply results_of_added|].
  split.
  - unfold exec at 1. unfold feed. rewrite for_each_app.
    fold (feed evs) (feed evs').
    destruct (feed evs s1) as [[[]|e] s2] eqn:E2.
    + assert (Hs2 : s2 = exec (feed evs) s1) by (unfold exec; rewrite E2; reflexivity).
      rewrite Hs2.
      destruct (feed_views evs' (exec (feed evs) s1) Hwf')
        as (adds' & Ef' & _).
      fold (exec (feed evs') (exec (feed evs) s1)).
      rewrite Ef', Ef, Hf. cbn [app]. eexists. reflexivity.
    + cbn [snd].
      assert (Hs2 : s2 = exec (feed evs) s1) by (unfold exec; rewrite E2; reflexivity).
      rewrite Hs2, Ef, Hf. exists []. rewrite app_nil_r. reflexivity.
  - destruct (feed_typed_views tevs s1 Hwf) as (Ev & Ew & _).
    rewrite Ev, Ew, Hf. split; reflexivity.
Qed.

(** ** Storing the assistant turn *)

Lemma deref_app_l (h h' : list (list pyval)) l :
  l < length h -> deref (h ++ h') l = deref h l.
Proof. intros Hl. unfold deref. rewrite lookup_app_l by exact Hl. reflexivity. Qed.

Lemma deref_app_new (h h' : list (list pyval)) xs :
  deref ((h ++ [xs]) ++ h') (length h) = xs.
Proof.
  unfold deref. rewrite lookup_app_l by (rewrite length_app; simpl; lia).
  rewrite lookup_app_r by lia.
  replace (length h - length h) with 0 by lia. reflexivity.
Qed.

Lemma last_turn_snoc s ms m :
  messages s = ms ++ [m] -> last_turn s = Some (view_turn (heap s) m).
Proof. intros E. unfold last_turn. rewrite E, rev_app_distr. reflexivity. Qed.


Lemma copy_list_eq l s :
  copy_list l s
  = (Ok (length (heap s)), set_heap (heap s ++ [deref (heap s) l]) s).
Proof. reflexivity. Qed.

Lemma copy_if_nonempty_eq l s :
  copy_if_nonempty l s
  = (Ok (fst (copied (heap s) l)),
     set_heap (heap s ++ snd (copied (heap s) l)) s).
Proof.
  unfold copy_if_nonempty, copy_list, bind, get, alloc, ret, copied.
  destruct s as [h d ms k a t rs ca al f]. cbn [heap].
  destruct (deref h l) eqn:E; cbn [fst snd heap].
  - unfold set_heap. cbn. rewrite app_nil_r. reflexivity.
  - rewrite E. reflexivity.
Qed.

Lemma copied_view h l hx :
  option_map (deref ((h ++ snd (copied h l)) ++ hx)) (fst (copied h l))
  = if_nonempty (deref h l).
Proof.
  unfold copied. destruct (deref h l) as [|x xs] eqn:E; cbn [fst snd option_map].
  - reflexivity.
  - rewrite deref_app_new. reflexivity.
Qed.

Lemma copied_loc h l x :
  fst (copied h l) = Some x ->
  x = length h /\ length (snd (copied h l)) = 1.
Proof.
  unfold copied. destruct (deref h l); cbn; [discriminate|].
  intros [= <-]. split; reflexivity.
Qed.

Lemma copied_app_l h hx l :
  l < length h ->
  copied (h ++ hx) l
  = (option_map (fun _ => length (h ++ hx)) (fst (copied h l)), snd (copied h l)).
Proof.
  intros Hl. unfold copied. rewrite deref_app_l by exact Hl.
  destruct (deref h l); reflexivity.
Qed.

(** The stored turn holds the flow log, the text of the deltas (or the
    returned value when there is none) and the two lists when they are not
    empty, each in a list object of its own that did not exist before. *)
Lemma store_assistant_message_spec (r : string) s :
  wf_buffers s ->
  exists m h',
    store_assistant_message r s
    = (Ok tt, set_messages (messages s ++ [m]) (set_heap (heap s ++ h') s)) /\
    view_turn (heap s ++ h') m
    = Turn "assistant"
           (if negb (String.eqb (all_agent_text s) "") then all_agent_text s else r)
           (Some (flow_log s)) (if_nonempty (tool_calls s))
           (if_nonempty (tool_results s)) /\
    (forall l, In l (message_locs m) ->
               length (heap s) <= l /\ l < length (heap s ++ h')).
Proof.
  intros (Hf & Ht & Hr & Hft & Hfr & Htr).
  destruct s as [h d ms k a t rs ca al f].
  cbn [heap conversation_flow current_message_tools current_message_results] in *.
  unfold store_assistant_message, flow_log, tool_calls, tool_results.
  cbn [heap conversation_flow current_message_tools current_message_results
       all_agent_text messages].
  set (h1 := h ++ [deref h f]).
  set (h2 := h1 ++ snd (copied h1 t)).
  set (h3 := h2 ++ snd (copied h2 rs)).
  exists (Message "assistant" (if negb (al =? "")%string then al else r)
            (Some (length h)) (fst (copied h1 t)) (fst (copied h2 rs))),
    ([deref h f] ++ snd (copied h1 t) ++ snd (copied h2 rs)).
  split; [|split].
  - rewrite (exec_bind_ok get _ _ _ _ eq_refl). cbv beta zeta.
    rewrite (exec_bind_ok _ _ _ _ _ (copy_list_eq _ _)). cbv beta.
    rewrite (exec_bind_ok get _ _ _ _ eq_refl). cbv beta.
    rewrite (exec_bind_ok _ _ _ _ _ (copy_if_nonempty_eq _ _)). cbv beta.
    rewrite (exec_bind_ok get _ _ _ _ eq_refl). cbv beta.
    rewrite (exec_bind_ok _ _ _ _ _ (copy_if_nonempty_eq _ _)). cbv beta.
    unfold modify, set_messages, set_heap.
    cbn [heap display messages file_uploader_key accumulated_text
         current_message_tools current_message_results
         current_message_accumulated all_agent_text conversation_flow].
    fold h1. fold h2. unfold h2, h1. rewrite <- !app_assoc. reflexivity.
  - replace (h ++ [deref h f] ++ snd (copied h1 t) ++ snd (copied h2 rs))
      with h3 by (unfold h3, h2, h1; rewrite <- !app_assoc; reflexivity).
    unfold view_turn.
    cbn [role content m_conversation_flow m_tools m_results option_map].
    f_equal.
    + f_equal. unfold h3, h2, h1. rewrite <- !app_assoc.
      change (h ++ [deref h f] ++ ?x) with (h ++ [deref h f] ++ x).
      rewrite app_assoc. apply deref_app_new.
    + unfold h3, h2. rewrite copied_view.
      unfold h1. rewrite deref_app_l by exact Ht. reflexivity.
    + unfold h3. rewrite <- (app_nil_r (h2 ++ snd (copied h2 rs))).
      rewrite copied_view.
      unfold h2, h1. rewrite !deref_app_l; [reflexivity | exact Hr |].
      rewrite length_app. lia.
  - unfold message_locs.
    cbn [m_conversation_flow m_tools m_results].
    assert (L1 : length h1 = length h + 1)
      by (unfold h1; rewrite length_app; reflexivity).
    assert (L2 : length h2 = length h1 + length (snd (copied h1 t)))
      by (unfold h2; apply length_app).
    intros l Hl. rewrite !length_app. cbn [length].
    apply in_app_or in Hl. destruct Hl as [Hl|Hl].
    + destruct Hl as [<-|[]]. lia.
    + apply in_app_or in Hl. destruct Hl as [Hl|Hl].
      * destruct (fst (copied h1 t)) as [x|] eqn:Ex; [|destruct Hl].
        destruct Hl as [<-|[]].
        destruct (copied_loc h1 t x Ex) as [-> Hlen]. lia.
      * destruct (fst (copied h2 rs)) as [x|] eqn:Ex; [|destruct Hl].
        destruct Hl as [<-|[]].
        destruct (copied_loc h2 rs x Ex) as [-> Hlen]. lia.
Qed.

Lemma exec_bind {A B} (c : M A) (k : A -> M B) s x :
  eval c s = Ok x ->
  exec (bind c k) s = exec (k x) (exec c s) /\
  eval (bind c k) s = eval (k x) (exec c s).
Proof.
  unfold eval, exec, bind. destruct (c s) as [[y|e] s']; cbn; [|discriminate].
  intros [= ->]. split; reflexivity.
Qed.

Lemma store_last_turn (r : string) s :
  wf_buffers s ->
  eval (store_assistant_message r) s = Ok tt /\
  last_turn (exec (store_assistant_message r) s)
  = Some (Turn "assistant"
            (if negb (String.eqb (all_agent_text s) "") then all_agent_text s else r)
            (Some (flow_log s)) (if_nonempty (tool_calls s))
            (if_nonempty (tool_results s))).
Proof.
  intros Hwf.
  destruct (store_assistant_message_spec r s Hwf) as (m & h' & E & V & _).
  unfold eval, exec. rewrite E. cbn [fst snd]. split; [reflexivity|].
  rewrite (last_turn_snoc _ (messages s) m) by reflexivity.
  rewrite <- V. reflexivity.
Qed.

(** One cycle on typed events: reset, the events, then the assistant turn
    is stored. *)
Lemma typed_cycle (s0 : session_state) (tevs : list event) (r : string) :
  let c := (reset ;; feed (map encode tevs) ;; store_assistant_message r) in
  eval c s0 = Ok tt /\
  last_turn (exec c s0)
  = Some (Turn "assistant"
            (if negb (String.eqb (join (map typed_text tevs)) "")
             then join (map typed_text tevs) else r)
            (Some (flat_map flow_items tevs))
            (if_nonempty (calls_of (flat_map flow_items tevs)))
            (if_nonempty (results_of (flat_map flow_items tevs)))).
Proof.
  cbv zeta. rewrite exec_reset_then, eval_reset_then.
  destruct (reset_buffers s0) as (Hwf & Hf & Ht & Hr & Ha & Hb).
  remember (exec reset s0) as s1 eqn:Hs1. clear Hs1.
  destruct (feed_typed_views tevs s1 Hwf) as (Ev & Ef & Etc & Etr & Et & Hwf2).
  destruct (exec_bind (feed (map encode tevs))
              (fun _ => store_assistant_message r) s1 tt Ev) as [Ex Ee].
  rewrite Ex, Ee.
  destruct (store_last_turn r _ Hwf2) as [Es El].
  rewrite Es, El, Ef, Etc, Etr, Et, Hf, Ht, Hr, Hb. split; reflexivity.
Qed.

(** C5. The scenario of the specification: two text deltas, an assistant
    message with a text element and a calculator tool use, and a user
    message with the tool result. After [reset()] the turn stored is the
    one the specification expects. *)
Theorem scenario_turn :
  forall (s0 : session_state) (r : string),
    let c := (reset ;; feed scenario ;; store_assistant_message r) in
    eval c s0 = Ok tt /\
    last_turn (exec c s0)
    = Some (Turn "assistant" "Let me check that."
              (Some [TextChunk (PStr "Let me check that.");
                     ToolCall scenario_call;
                     ToolResult scenario_result])
              (Some [scenario_call])
              (Some [scenario_result])).
Proof.
  intros s0 r.
  change scenario with
    (map encode
       [TextDelta "Let me check "; TextDelta "that.";
        AssistantMessage
          [EText (PStr "Let me check that.");
           EToolUse (PStr "calculator") (PDict [("expr", PStr "2+2")]) (PStr "t1")];
        UserMessage
          [EToolResult (Some (PStr "success")) (Some [TextPart (PStr "4")])]]).
  apply typed_cycle.
Qed.

(** ** The display text of an assistant turn *)



(** ** A tool use without a name *)

(** C3: the callback raises [KeyError] on an assistant message whose tool
    use lacks ["name"], in every state; the agent call of the submission
    that delivers it fails and no assistant turn is stored. *)
Theorem tool_use_without_name_raises :
  (forall s, eval (callback_handler tool_use_without_name) s
             = Raise (KeyError "name")) /\
  let run := fun _ : string => AgentRun [tool_use_without_name] (Ok "done") in
  eval (chat_input "hi" [] run) init_session = Raise (KeyError "name") /\
  messages (exec (chat_input "hi" [] run) init_session)
  = [Message "user" "hi" None None None].
Proof.
  split; [intros s; reflexivity|].
  split; vm_compute; reflexivity.
Qed.

(** ** Dispatch *)

(** C7, as amended. The callback dispatches on the first shape that
    matches, where an event has the shape of a text delta when its
    ["data"] is present and truthy (for a string: not empty). Such an
    event leaves the heap, the three lists and the display as they are,
    whatever other keys it has; when the delta is a string, both text
    buffers are extended by it and nothing else changes. An event whose
    ["data"] is missing or falsy is dispatched on its other keys: with a
    ["current_tool_use"] it changes nothing, also when it has a
    ["message"]; otherwise with a ["message"] it is handled as that
    message; any other event changes nothing. *)
Theorem dispatch_priority :
  forall (kw : dict) (s : session_state),
    (forall v, assoc "data" kw = Some v -> truthy v = true ->
       heap (exec (callback_handler kw) s) = heap s /\
       flow_log (exec (callback_handler kw) s) = flow_log s /\
       tool_calls (exec (callback_handler kw) s) = tool_calls s /\
       tool_results (exec (callback_handler kw) s) = tool_results s /\
       display (exec (callback_handler kw) s) = display s /\
       forall d, v = PStr d ->
         callback_handler kw s
         = (Ok tt,
            set_all_agent_text (String.append (all_agent_text s) d)
              (set_accumulated_text (String.append (accumulated_text s) d) s))) /\
    ((forall v, assoc "data" kw = Some v -> truthy v = false) ->
       (dict_in "current_tool_use" kw = true ->
          callback_handler kw s = (Ok tt, s)) /\
       (dict_in "current_tool_use" kw = false ->
          forall m, assoc "message" kw = Some m ->
            callback_handler kw s = handle_message m s) /\
       (dict_in "current_tool_use" kw = false ->
          assoc "message" kw = None ->
          callback_handler kw s = (Ok tt, s))).
Proof.
  intros kw s. unfold callback_handler, exec. split.
  - intros v Hv Ht.
    assert (Hd : has_data kw = true) by (unfold has_data; rewrite Hv; exact Ht).
    rewrite Hd. unfold bind, lift, get, modify, py_getitem. rewrite Hv.
    destruct s; destruct v; cbn; unfold flow_log, tool_calls, tool_results;
      cbn; repeat split; try reflexivity; try discriminate.
    intros d [= ->]. reflexivity.
  - intros Hf.
    assert (Hd : has_data kw = false).
    { unfold has_data. destruct (assoc "data" kw) as [v|]; [|reflexivity].
      exact (Hf v eq_refl). }
    rewrite Hd. split; [|split].
    + intros Hc. rewrite Hc. reflexivity.
    + intros Hc m Hm. rewrite Hc. unfold dict_in. rewrite Hm.
      unfold bind, lift, py_getitem. rewrite Hm. reflexivity.
    + intros Hc Hm. rewrite Hc. unfold dict_in. rewrite Hm. reflexivity.
Qed.

Lemma dispatch_priority_witness :
  callback_handler
    [("data", PStr "x"); ("current_tool_use", PNone);
     ("message", PDict [("role", PStr "assistant");
                        ("content", PList [PDict [("text", PStr "y")]])])]
    init_session
  = (Ok tt, set_all_agent_text "x" (set_accumulated_text "x" init_session)) /\
  callback_handler [("data", PStr ""); ("current_tool_use", PNone);
                    ("message", PNone)] init_session
  = (Ok tt, init_session) /\
  callback_handler [("message", PDict [])] init_session
  = handle_message (PDict []) init_session /\
  callback_handler [("event", PNone)] init_session = (Ok tt, init_session).
Proof.
  split; [|split; [|split]].
  - refine (proj2 (proj2 (proj2 (proj2 (proj2
             (proj1
                (dispatch_priority
                   [("data", PStr "x"); ("current_tool_use", PNone);
                    ("message",
                     PDict [("role", PStr "assistant");
                            ("content", PList [PDict [("text", PStr "y")]])])]
                   init_session) (PStr "x") eq_refl eq_refl))))) "x" eq_refl).
  - refine (proj1
             (proj2
                (dispatch_priority
                   [("data", PStr ""); ("current_tool_use", PNone);
                    ("message", PNone)] init_session) _) eq_refl).
    intros v [= <-]. reflexivity.
  - refine (proj1 (proj2
             (proj2 (dispatch_priority [("message", PDict [])] init_session) _))
             eq_refl (PDict []) eq_refl).
    intros v [=].
  - refine (proj2 (proj2
             (proj2 (dispatch_priority [("event", PNone)] init_session) _))
             eq_refl eq_refl).
    intros v [=].
Defined.

(** C7, as stated, fails: an event that carries a text delta, the empty
    string, and a completed message. The delta does not win: the message
    is handled and its text chunk is appended to the flow log. *)
Lemma empty_delta_does_not_win :
  assoc "data" empty_delta_with_message = Some (PStr "") /\
  eval (callback_handler empty_delta_with_message) init_session = Ok tt /\
  flow_log (exec (callback_handler empty_delta_with_message) init_session)
  = [TextChunk (PStr "y")] /\
  flow_log (exec (callback_handler empty_delta_with_message) init_session)
  <> flow_log init_session.
Proof.
  split; [reflexivity|]. split; [reflexivity|]. split; [reflexivity|].
  vm_compute. discriminate.
Qed.

(** ** Computations that only show widgets *)

Lemma set_display_id s : set_display (display s ++ []) s = s.
Proof. destruct s. unfold set_display. simpl. rewrite app_nil_r. reflexivity. Qed.

Lemma shows_ret {A} (x : A) : shows (ret x).
Proof. intros s. exists (Ok x), []. rewrite set_display_id. reflexivity. Qed.

Lemma shows_lift {A} (r : result A) : shows (lift r).
Proof. intros s. exists r, []. rewrite set_display_id. reflexivity. Qed.

Lemma shows_show (w : widget) : shows (show w).
Proof. intros s. exists (Ok tt), [w]. reflexivity. Qed.

Lemma shows_bind {A B} (c : M A) (k : A -> M B) :
  shows c -> (forall x, shows (k x)) -> shows (bind c k).
Proof.
  intros Hc Hk s. destruct (Hc s) as (r & w1 & E1).
  unfold bind. rewrite E1. destruct r as [x|e].
  - destruct (Hk x (set_display (display s ++ w1) s)) as (r2 & w2 & E2).
    exists r2, (w1 ++ w2). rewrite E2. unfold set_display. simpl.
    rewrite app_assoc. reflexivity.
  - exists (Raise e), w1. reflexivity.
Qed.

Lemma shows_get {A} (k : session_state -> M A) :
  (forall s, shows (k s)) -> shows (bind get k).
Proof. intros Hk s. unfold bind, get. apply Hk. Qed.

Lemma shows_for_each {A} (xs : list A) (body : A -> M unit) :
  (forall x, shows (body x)) -> shows (for_each xs body).
Proof.
  intros Hb. induction xs as [|x xs IH]; simpl.
  - apply shows_ret.
  - apply shows_bind; [apply Hb | intros _; exact IH].
Qed.

Lemma shows_exiting {A} (close : widget) (body : M A) :
  shows body -> shows (exiting close body).
Proof.
  intros H s. destruct (H s) as (r & w & E).
  exists r, (w ++ [close]). unfold exiting. rewrite E.
  unfold set_display. cbn. rewrite app_assoc. reflexivity.
Qed.

Lemma shows_within {A} (open close : widget) (body : M A) :
  shows body -> shows (within open close body).
Proof.
  intros H. unfold within.
  apply shows_bind; [apply shows_show | intros _].
  apply shows_exiting, H.
Qed.

Ltac shows_step :=
  lazymatch goal with
  | |- shows (within _ _ _) => apply shows_within
  | |- shows (bind get _) => apply shows_get; intros ?
  | |- shows (bind _ _) => apply shows_bind; [ | intros ? ]
  | |- shows (ret _) => apply shows_ret
  | |- shows (lift _) => apply shows_lift
  | |- shows (show _) => apply shows_show
  | |- shows (for_each _ _) => apply shows_for_each; intros ?
  | |- shows (if ?c then _ else _) => destruct c
  | |- shows (match ?c with _ => _ end) => destruct c
  end.

Lemma shows_show_part item : shows (show_part item).
Proof. unfold show_part. repeat shows_step. Qed.

Lemma shows_show_result_live result : shows (show_result_live result).
Proof.
  unfold show_result_live. repeat first [ apply shows_show_part | shows_step ].
Qed.

Lemma shows_show_tool tool : shows (show_tool tool).
Proof. unfold show_tool. repeat shows_step. Qed.

Lemma shows_show_result result : shows (show_result result).
Proof.
  unfold show_result. repeat first [ apply shows_show_part | shows_step ].
Qed.

Lemma shows_show_flow_item item : shows (show_flow_item item).
Proof.
  unfold show_flow_item.
  repeat first [ apply shows_show_tool | apply shows_show_result | shows_step ].
Qed.

Lemma shows_show_message_body m : shows (show_message_body m).
Proof.
  unfold show_message_body.
  repeat first [ apply shows_show_flow_item | apply shows_show_tool
               | apply shows_show_result | shows_step ].
Qed.

Lemma shows_show_message m : shows (show_message m).
Proof.
  unfold show_message.
  repeat first [ apply shows_show_message_body | shows_step ].
Qed.

Lemma shows_display_chat_messages : shows display_chat_messages.
Proof.
  unfold display_chat_messages.
  repeat first [ apply shows_show_message | shows_step ].
Qed.


(** ** The status of a tool result *)




Lemma wf_buffers_init : wf_buffers init_session.
Proof. unfold wf_buffers; simpl. repeat split; (lia || discriminate). Qed.

(** What the callback does with a tool result whose status is not the
    string "success". *)
Lemma failed_result_update (result rest : dict) s :
  let st := match assoc "status" result with Some x => x | None => PNone end in
  let c := match assoc "content" result with
           | Some x => x
           | None => PList []
           end in
  let label := match assoc "status" result with
               | Some x => x
               | None => PStr "Failed"
               end in
  py_eq_str st "success" = false ->
  exists w,
    user_content (PDict (("toolResult", PDict result) :: rest)) s
    = (Ok tt, update (display s ++ ErrorBadge label :: w)
                (accumulated_text s) (all_agent_text s)
                [AResult (result_info st c)] s).
Proof.
  cbv zeta. intros Hst.
  set (st := match assoc "status" result with Some x => x | None => PNone end) in *.
  set (c := match assoc "content" result with Some x => x | None => PList [] end).
  set (label := match assoc "status" result with
                | Some x => x
                | None => PStr "Failed"
                end).
  assert (El : exists w,
             show_result_live (PDict result) s
             = (Ok tt, set_display (display s ++ ErrorBadge label :: w) s)).
  { unfold show_result_live, bind, lift, py_get, py_in, py_getitem, dict_in.
    fold st. rewrite Hst. fold label.
    destruct (assoc "content" result) as [x|].
    - exists [ExpanderOpen "Error Details" true; CodeStr x; ExpanderClose].
      unfold within, exiting, bind, lift, show, modify, set_display. cbn.
      rewrite <- !app_assoc. reflexivity.
    - exists []. reflexivity. }
  destruct El as [w El]. exists w.
  change (user_content (PDict (("toolResult", PDict result) :: rest)) s)
    with ((show_result_live (PDict result) ;;
           flow_append (ToolResult (result_info st c)) ;;
           results_append (result_info st c)) s).
  unfold bind at 1. rewrite El.
  change (set_display (display s ++ ErrorBadge label :: w) s)
    with (update (display s ++ ErrorBadge label :: w)
            (accumulated_text s) (all_agent_text s) [] s).
  apply add_result_update.
Qed.








(** ** Turns without a flow log *)

Lemma for_each_map {A B} (f : A -> B) (xs : list A) (body : B -> M unit) :
  for_each (map f xs) body = for_each xs (fun x => body (f x)).
Proof.
  induction xs as [|x xs IH]; simpl; [reflexivity | rewrite IH; reflexivity].
Qed.

Lemma flat_map_nil {A B} (xs : list A) : flat_map (fun _ : A => @nil B) xs = [].
Proof. induction xs as [|x xs IH]; simpl; [reflexivity | exact IH]. Qed.

Lemma runs_show_tool t : runs (show_tool (stored_call t)) tt (call_widgets t) [].
Proof.
  destruct t as [[n i] id]. unfold show_tool, stored_call. cbn.
  eapply runs_eq; [ repeat runs_more | reflexivity | reflexivity ].
Qed.

Lemma runs_show_result r :
  runs (show_result (stored_parts_result r)) tt (result_widgets r) [].
Proof.
  destruct r as [st ps]. unfold show_result, stored_parts_result.
  cbn. destruct (py_eq_str st "success") eqn:E.
  - eapply runs_eq;
      [ repeat runs_more
      | cbn; unfold replay_badge; rewrite E; reflexivity | reflexivity ].
  - eapply runs_eq;
      [ repeat runs_more
      | cbn; unfold replay_badge; rewrite E; reflexivity | reflexivity ].
Qed.

Lemma runs_show_tools ts :
  runs (for_each (map stored_call ts) show_tool) tt (flat_map call_widgets ts) [].
Proof.
  rewrite for_each_map. eapply runs_eq.
  - apply (runs_for_each ts (fun t => show_tool (stored_call t)) call_widgets
             (fun _ => [])). intros t. apply runs_show_tool.
  - reflexivity.
  - apply flat_map_nil.
Qed.

Lemma runs_show_results rs :
  runs (for_each (map stored_parts_result rs) show_result) tt
       (flat_map result_widgets rs) [].
Proof.
  rewrite for_each_map. eapply runs_eq.
  - apply (runs_for_each rs (fun r => show_result (stored_parts_result r))
             result_widgets (fun _ => [])). intros r. apply runs_show_result.
  - reflexivity.
  - apply flat_map_nil.
Qed.

Lemma runs_plain {A} (c : M A) x w s :
  runs c x w [] -> c s = (Ok x, set_display (display s ++ w) s).
Proof.
  intros H.
  specialize (H s (display s) (accumulated_text s) (all_agent_text s) []).
  rewrite update_id in H. rewrite H. reflexivity.
Qed.

Lemma bind_plain {A B} (c : M A) (k : A -> M B) x y w1 w2 s :
  c s = (Ok x, set_display (display s ++ w1) s) ->
  k x (set_display (display s ++ w1) s)
  = (Ok y, set_display (display (set_display (display s ++ w1) s) ++ w2)
             (set_display (display s ++ w1) s)) ->
  bind c k s = (Ok y, set_display (display s ++ (w1 ++ w2)) s).
Proof.
  intros E1 E2. unfold bind. rewrite E1, E2.
  unfold set_display. simpl. rewrite app_assoc. reflexivity.
Qed.

(** C4. An assistant turn of the legacy format, stored without a flow log
    (its flow is empty: the ["conversation_flow"] key is missing), whose
    tool calls and tool results have the documented shapes, is replayed
    as: the display text when it is not empty, then every tool call in
    order, then every tool result in order; a missing list counts as
    empty. *)
Theorem legacy_turn_rendering :
  forall (s : session_state) (text : string) (tl rl : option loc)
         (calls : list (pyval * pyval * pyval))
         (results : list (pyval * list part)),
    stored_list (heap s) tl = map stored_call calls ->
    stored_list (heap s) rl = map stored_parts_result results ->
    show_message_body (Message "assistant" text None tl rl) s
    = (Ok tt, set_display (display s ++ legacy_rendering text calls results) s).
Proof.
  intros s text tl rl calls results Ht Hr.
  unfold show_message_body, legacy_rendering. cbn.
  eapply bind_plain.
  - destruct (negb (text =? "")%string).
    + apply runs_plain, runs_show.
    + apply runs_plain, runs_ret.
  - eapply bind_plain.
    + destruct tl as [l|]; simpl in Ht.
      * unfold bind, get. simpl heap. rewrite Ht.
        apply runs_plain, runs_show_tools.
      * destruct calls; [|discriminate]. apply runs_plain, runs_ret.
    + destruct rl as [l|]; simpl in Hr.
      * unfold bind, get. simpl heap. rewrite Hr.
        apply runs_plain, runs_show_results.
      * destruct results; [|discriminate]. apply runs_plain, runs_ret.
Qed.

Lemma legacy_turn_rendering_witness :
  let s := SessionState
             [[tool_info (PStr "calculator") (PDict []) (PStr "t1")];
              [result_info (PStr "success") (PList [PDict [("text", PStr "4")]])]]
             [] [] 0 "" 0 0 "" "" 0 in
  show_message_body (Message "assistant" "hi" None (Some 0) (Some 1)) s
  = (Ok tt,
     set_display
       [Write (PStr "hi");
        ToolCallBadge (PStr "calculator"); ExpanderOpen "Tool Input" false;
        Json (PDict []); ExpanderClose;
        SuccessBadge; ExpanderOpen "Tool Result" false; Code (PStr "4");
        ExpanderClose] s).
Proof.
  cbv zeta.
  apply (legacy_turn_rendering
           (SessionState
              [[tool_info (PStr "calculator") (PDict []) (PStr "t1")];
               [result_info (PStr "success") (PList [PDict [("text", PStr "4")]])]]
              [] [] 0 "" 0 0 "" "" 0)
           "hi" (Some 0) (Some 1)
           [(PStr "calculator", PDict [], PStr "t1")]
           [(PStr "success", [TextPart (PStr "4")])]);
    reflexivity.
Defined.

(** ** One submission *)

Lemma fresh_buffers h d m k :
  let s' := SessionState (((h ++ [[]]) ++ [[]]) ++ [[]]) d m k ""
              (length h) (S (length h)) "" "" (S (S (length h))) in
  wf_buffers s' /\ flow_log s' = [] /\ tool_calls s' = [] /\
  tool_results s' = [].
Proof.
  cbv zeta. unfold wf_buffers, flow_log, tool_calls, tool_results, deref; simpl.
  rewrite !length_app; simpl.
  repeat split; try lia.
  - rewrite lookup_app_r by (rewrite !length_app; simpl; lia).
    rewrite !length_app; simpl.
    replace (S (S (length h)) - (length h + 1 + 1)) with 0 by lia.
    reflexivity.
  - rewrite lookup_app_l by (rewrite !length_app; simpl; lia).
    rewrite lookup_app_l by (rewrite !length_app; simpl; lia).
    rewrite lookup_app_r by lia.
    replace (length h - length h) with 0 by lia. reflexivity.
  - rewrite lookup_app_l by (rewrite !length_app; simpl; lia).
    rewrite lookup_app_r by (rewrite !length_app; simpl; lia).
    rewrite !length_app; simpl.
    replace (S (length h) - (length h + 1)) with 0 by lia.
    reflexivity.
Qed.

(** The first part of a submission never raises: it stores the user turn,
    shows it and leaves three new, empty buffers. *)
Lemma begin_submission_full (prompt : string) (paths : list string) s :
  begin_submission prompt paths s
  = (Ok tt,
     SessionState (((heap s ++ [[]]) ++ [[]]) ++ [[]])
       (display s ++ user_bubble prompt paths ++
        [ChatMessageOpen "assistant"; SpinnerOpen])
       (messages s ++ [Message "user" prompt None None None])
       (file_uploader_key s) "" (length (heap s)) (S (length (heap s)))
       "" "" (S (S (length (heap s))))).
Proof.
  destruct s as [h d ms k a t rs ca al f].
  destruct paths as [|p ps].
  - unfold begin_submission, reset, bind, show, modify, alloc, ret. cbn.
    unfold_setters. rewrite !length_app. cbn. rewrite <- !app_assoc. cbn.
    do 2 f_equal; lia.
  - unfold begin_submission, reset, bind, show, modify, alloc, ret. cbn.
    unfold_setters. rewrite !length_app. cbn. rewrite <- !app_assoc. cbn.
    do 2 f_equal; lia.
Qed.

Lemma begin_submission_eq (prompt : string) (paths : list string) s :
  exists w,
    begin_submission prompt paths s
    = (Ok tt,
       SessionState (((heap s ++ [[]]) ++ [[]]) ++ [[]]) (display s ++ w)
         (messages s ++ [Message "user" prompt None None None])
         (file_uploader_key s) "" (length (heap s)) (S (length (heap s)))
         "" "" (S (S (length (heap s))))).
Proof. eexists. apply begin_submission_full. Qed.

Lemma set_display_same s : set_display (display s) s = s.
Proof. destruct s; reflexivity. Qed.

(** The last part of a submission never raises: it stores one assistant
    turn, built from the buffers, in new list objects, and shows nothing. *)
Lemma finish_submission_full (r : string) (paths : list string) s :
  wf_buffers s ->
  exists m h',
    finish_submission r paths s
    = (Ok tt,
       set_file_uploader_key
         (match paths with
          | [] => file_uploader_key s
          | _ :: _ => (file_uploader_key s + 1)%Z
          end)
         (set_messages (messages s ++ [m])
            (set_heap (heap s ++ h') (set_display (display s) s)))) /\
    view_turn (heap s ++ h') m
    = Turn "assistant"
           (if negb (String.eqb (all_agent_text s) "") then all_agent_text s else r)
           (Some (flow_log s)) (if_nonempty (tool_calls s))
           (if_nonempty (tool_results s)) /\
    (forall l, In l (message_locs m) ->
               length (heap s) <= l /\ l < length (heap s ++ h')).
Proof.
  intros Hwf. unfold finish_submission.
  destruct (store_assistant_message_spec r s Hwf) as (m & h' & Es & V & L).
  unfold bind at 1. rewrite Es. rewrite set_display_same.
  exists m, h'.
  split; [destruct paths; reflexivity | split; [exact V | exact L]].
Qed.

Lemma finish_submission_eq (r : string) (paths : list string) s :
  wf_buffers s ->
  exists m h' d' k',
    finish_submission r paths s
    = (Ok tt,
       set_file_uploader_key k'
         (set_messages (messages s ++ [m])
            (set_heap (heap s ++ h') (set_display d' s)))) /\
    view_turn (heap s ++ h') m
    = Turn "assistant"
           (if negb (String.eqb (all_agent_text s) "") then all_agent_text s else r)
           (Some (flow_log s)) (if_nonempty (tool_calls s))
           (if_nonempty (tool_results s)) /\
    (forall l, In l (message_locs m) ->
               length (heap s) <= l /\ l < length (heap s ++ h')).
Proof.
  intros Hwf.
  destruct (finish_submission_full r paths s Hwf) as (m & h' & H).
  exists m, h'. eexists. eexists. exact H.
Qed.

Lemma chat_input_eq (prompt : string) (paths : list string)
    (agent : string -> agent_run) s :
  prompt <> "" ->
  chat_input prompt paths agent s
  = (begin_submission prompt paths ;;
     r <- agent_call (agent (full_prompt prompt paths)) ;;
     finish_submission r paths) s.
Proof.
  intros Hp. unfold chat_input.
  destruct (String.eqb_spec prompt ""); [contradiction | reflexivity].
Qed.

(** The agent call inside its two context managers: the result and the
    state of the agent call, with the end of the bubble added to the
    display. *)
Lemma agent_call_eq (run : agent_run) s :
  agent_call run s
  = (eval (invoke_agent run) s,
     set_display
       (display (exec (invoke_agent run) s) ++
        closing_after (eval (invoke_agent run) s)
          (accumulated_text (exec (invoke_agent run) s)))
       (exec (invoke_agent run) s)).
Proof.
  unfold agent_call, exiting, eval, exec, bind.
  destruct (invoke_agent run s) as [[x|e] s']; cbn [fst snd].
  - unfold get, closing_after, closing.
    cbn [accumulated_text set_display].
    destruct (accumulated_text s' =? "")%string; cbn;
      unfold set_display; cbn; rewrite <- ?app_assoc; reflexivity.
  - unfold set_display. cbn. rewrite <- app_assoc. reflexivity.
Qed.

Lemma invoke_agent_update (run : agent_run) s0 d a b adds :
  exists r w g more,
    invoke_agent run (update d a b adds s0)
    = (r, update (d ++ w) (String.append a g) (String.append b g)
            (adds ++ more) s0)
    /\ (forall x, r = Ok x ->
          outcome run = Ok x /\ g = join (text_deltas (events run))).
Proof.
  unfold invoke_agent.
  destruct (feed_update (events run) s0 d a b adds)
    as (r & w & g & more & E & G).
  unfold feed in E. unfold bind. rewrite E.
  destruct r as [[]|e].
  - exists (outcome run), w, g, more. split; [reflexivity|].
    intros x Hx. split; [exact Hx | apply G; reflexivity].
  - exists (Raise e), w, g, more. split; [reflexivity | discriminate].
Qed.

Lemma agent_call_update (run : agent_run) s0 d a b adds :
  exists r w g more,
    agent_call run (update d a b adds s0)
    = (r, update (d ++ w) (String.append a g) (String.append b g)
            (adds ++ more) s0)
    /\ eval (invoke_agent run) (update d a b adds s0) = r
    /\ (forall x, r = Ok x ->
          outcome run = Ok x /\ g = join (text_deltas (events run))).
Proof.
  destruct (invoke_agent_update run s0 d a b adds)
    as (r & w & g & more & E & G).
  rewrite agent_call_eq. unfold eval, exec. rewrite E. cbn [fst snd].
  exists r, (w ++ closing_after r (String.append a g)), g, more.
  split; [|split; [reflexivity | exact G]].
  unfold update, set_display. cbn. rewrite app_assoc. reflexivity.
Qed.

(** The agent call on a run of documented events. *)
Lemma agent_call_live (tevs : list event) (o : result string) s0 d a b adds :
  agent_call (AgentRun (map encode tevs) o) (update d a b adds s0)
  = (o, update (d ++ flat_map event_live tevs ++
                closing_after o (String.append a (join (map typed_text tevs))))
          (String.append a (join (map typed_text tevs)))
          (String.append b (join (map typed_text tevs)))
          (adds ++ flat_map typed_adds tevs) s0).
Proof.
  rewrite agent_call_eq. unfold eval, exec, invoke_agent.
  cbn [events outcome]. unfold bind.
  pose proof (feed_live tevs s0 d a b adds) as E. unfold feed in E.
  rewrite E. unfold lift. cbn [fst snd].
  unfold update, set_display. cbn. rewrite app_assoc. reflexivity.
Qed.

(** C9. When the agent call of a submission raises, be it the agent
    itself or the callback on one of its events, the submission raises
    the same exception and the transcript is what it was before, with the
    user turn of this submission added and no assistant turn. *)
Theorem agent_failure_stores_no_turn :
  forall (s : session_state) (prompt : string) (paths : list string)
         (agent : string -> agent_run) (e : exn),
    prompt <> "" ->
    eval (invoke_agent (agent (full_prompt prompt paths)))
         (exec (begin_submission prompt paths) s) = Raise e ->
    eval (chat_input prompt paths agent) s = Raise e /\
    messages (exec (chat_input prompt paths agent) s)
    = messages s ++ [Message "user" prompt None None None].
Proof.
  intros s prompt paths agent e Hp Hraise.
  unfold eval, exec in *. rewrite chat_input_eq by exact Hp.
  destruct (begin_submission_eq prompt paths s) as [w Eb].
  rewrite Eb in Hraise. simpl snd in Hraise.
  rewrite (exec_bind_ok _ _ _ _ _ Eb).
  set (s1 := SessionState _ _ _ _ _ _ _ _ _ _) in *.
  rewrite <- (update_id s1) in Hraise |- *.
  destruct (agent_call_update (agent (full_prompt prompt paths)) s1
              (display s1) (accumulated_text s1) (all_agent_text s1) [])
    as (r & w' & g & more & Ei & Er & _).
  unfold eval in Er. rewrite Er in Hraise. subst r.
  unfold bind. rewrite Ei. split; reflexivity.
Qed.

Lemma agent_failure_stores_no_turn_witness :
  let agent := fun _ : string => AgentRun [[("data", PStr "partial")]] (Raise AgentFailure) in
  eval (chat_input "hi" [] agent) init_session = Raise AgentFailure /\
  messages (exec (chat_input "hi" [] agent) init_session)
  = messages init_session ++ [Message "user" "hi" None None None].
Proof.
  cbv zeta.
  apply (agent_failure_stores_no_turn init_session "hi" []
           (fun _ => AgentRun [[("data", PStr "partial")]] (Raise AgentFailure))
           AgentFailure).
  - discriminate.
  - reflexivity.
Defined.

(** ** The display text of a submission *)





(** ** Stored turns do not change *)

Lemma later_refl s : later s s.
Proof. split; [lia | intros l Hl; split; [exact Hl | reflexivity]]. Qed.

Lemma later_trans s1 s2 s3 : later s1 s2 -> later s2 s3 -> later s1 s3.
Proof.
  intros [L12 F12] [L23 F23]. split; [lia|].
  intros l Hl. destruct (F12 l Hl) as [H2 E2]. destruct (F23 l H2) as [H3 E3].
  split; [exact H3 | congruence].
Qed.

Lemma view_turn_later s s' m :
  (forall l, In l (message_locs m) -> frozen s l) ->
  later s s' ->
  view_turn (heap s') m = view_turn (heap s) m.
Proof.
  intros Hm [_ HF].
  assert (E : forall l, In l (message_locs m) ->
                        deref (heap s') l = deref (heap s) l).
  { intros l Hl. apply HF, Hm, Hl. }
  unfold view_turn, message_locs in *.
  destruct m as [ro co [lf|] [lt|] [lr|]]; cbn in *;
    rewrite ?(E lf), ?(E lt), ?(E lr) by tauto; reflexivity.
Qed.

(** A state that differs in the display only. *)
Lemma step_display d s :
  wf_session s ->
  wf_session (set_display d s) /\ later s (set_display d s) /\
  messages (set_display d s) = messages s.
Proof.
  intros H. split; [exact H|]. split; [exact (later_refl s) | reflexivity].
Qed.

(** A state reached by showing widgets, extending the text buffers and
    adding to the three buffers. *)
Lemma step_update d a b adds s :
  wf_session s ->
  wf_session (update d a b adds s) /\ later s (update d a b adds s) /\
  messages (update d a b adds s) = messages s.
Proof.
  intros [Hwf Hm].
  assert (HF : forall l, frozen s l ->
             frozen (update d a b adds s) l /\
             deref (heap (update d a b adds s)) l = deref (heap s) l).
  { intros l (Hl & H1 & H2 & H3). split.
    - unfold frozen, update, heap_after; cbn.
      rewrite length_fold_heap_add. tauto.
    - unfold update, heap_after; cbn.
      apply deref_fold_other; assumption. }
  split; [|split].
  - split; [apply wf_buffers_update; exact Hwf|].
    intros m l Hin Hl. apply HF. exact (Hm m l Hin Hl).
  - split; [|exact HF].
    unfold update, heap_after; cbn. rewrite length_fold_heap_add. lia.
  - reflexivity.
Qed.

(** A state with three new, empty buffers and a transcript extended by
    turns that refer to no list. *)
Lemma step_fresh d new k s :
  wf_session s ->
  (forall m, In m new -> message_locs m = []) ->
  let s' := SessionState (((heap s ++ [[]]) ++ [[]]) ++ [[]]) d
              (messages s ++ new) k ""
              (length (heap s)) (S (length (heap s))) "" ""
              (S (S (length (heap s)))) in
  wf_session s' /\ later s s'.
Proof.
  intros [Hwf Hm] Hnew. cbv zeta.
  assert (HF : forall l, frozen s l ->
             frozen (SessionState (((heap s ++ [[]]) ++ [[]]) ++ [[]]) d
                       (messages s ++ new) k ""
                       (length (heap s)) (S (length (heap s))) "" ""
                       (S (S (length (heap s))))) l /\
             deref (((heap s ++ [[]]) ++ [[]]) ++ [[]]) l = deref (heap s) l).
  { intros l (Hl & _). split.
    - unfold frozen; cbn. rewrite !length_app; cbn. lia.
    - rewrite !deref_app_l; [reflexivity | exact Hl | |];
        rewrite ?length_app; cbn; lia. }
  split; [split|].
  - apply fresh_buffers.
  - cbn [messages]. intros m l Hin Hl.
    apply in_app_or in Hin. destruct Hin as [Hin|Hin].
    + apply HF. exact (Hm m l Hin Hl).
    + rewrite (Hnew m Hin) in Hl. destruct Hl.
  - split; [cbn; rewrite !length_app; lia | exact HF].
Qed.

(** A state with new list objects at the end of the heap and one more
    turn, whose lists are among the new objects. *)
Lemma step_store k m h' d s :
  wf_session s ->
  (forall l, In l (message_locs m) ->
             length (heap s) <= l /\ l < length (heap s ++ h')) ->
  let s' := set_file_uploader_key k
              (set_messages (messages s ++ [m])
                 (set_heap (heap s ++ h') (set_display d s))) in
  wf_session s' /\ later s s'.
Proof.
  intros [Hwf Hm] Hnew. cbv zeta.
  destruct Hwf as (Hf & Ht & Hr & Hft & Hfr & Htr).
  assert (HF : forall l, frozen s l ->
             frozen (set_file_uploader_key k
                       (set_messages (messages s ++ [m])
                          (set_heap (heap s ++ h') (set_display d s)))) l /\
             deref (heap s ++ h') l = deref (heap s) l).
  { intros l (Hl & H1 & H2 & H3). split.
    - unfold frozen; cbn. rewrite length_app. repeat split; try assumption. lia.
    - apply deref_app_l. exact Hl. }
  split; [split|].
  - unfold wf_buffers; cbn. rewrite length_app. repeat split; try assumption; lia.
  - cbn [messages set_file_uploader_key set_messages]. intros m0 l Hin Hl.
    apply in_app_or in Hin. destruct Hin as [Hin|[<-|[]]].
    + apply HF. exact (Hm m0 l Hin Hl).
    + destruct (Hnew l Hl) as [Hlo Hhi].
      unfold frozen; cbn. repeat split; [exact Hhi | lia | lia | lia].
  - split; [cbn; rewrite length_app; lia | exact HF].
Qed.

Lemma wf_session_init : wf_session init_session.
Proof. split; [exact wf_buffers_init | intros m l []]. Qed.

(** Every action keeps the session well formed, leaves the list objects
    of the stored turns as they are, and either clears the transcript or
    extends it. *)
Lemma perform_step (a : action) s :
  wf_session s ->
  let s' := exec (perform a) s in
  wf_session s' /\ later s s' /\
  (messages s' = [] \/ exists new, messages s' = messages s ++ new).
Proof.
  intros Hwf. cbv zeta. destruct a as [prompt paths agent| | |kw|]; cbn [perform].
  - (* a submission *)
    unfold exec. destruct (String.eqb_spec prompt "") as [->|Hp].
    { cbn. split; [exact Hwf|]. split; [apply later_refl|].
      right. exists []. rewrite app_nil_r. reflexivity. }
    rewrite chat_input_eq by exact Hp.
    destruct (begin_submission_eq prompt paths s) as [w Eb].
    rewrite (exec_bind_ok _ _ _ _ _ Eb).
    destruct (step_fresh (display s ++ w) [Message "user" prompt None None None]
                (file_uploader_key s) s Hwf) as [Hwf1 L1].
    { intros m [<-|[]]. reflexivity. }
    cbv zeta in Hwf1, L1.
    remember (SessionState (((heap s ++ [[]]) ++ [[]]) ++ [[]]) (display s ++ w)
                (messages s ++ [Message "user" prompt None None None])
                (file_uploader_key s) "" (length (heap s)) (S (length (heap s)))
                "" "" (S (S (length (heap s))))) as s1 eqn:Hs1.
    assert (M1 : messages s1 = messages s ++ [Message "user" prompt None None None])
      by (rewrite Hs1; reflexivity).
    clear Hs1 Eb.
    rewrite <- (update_id s1).
    destruct (agent_call_update (agent (full_prompt prompt paths)) s1
                (display s1) (accumulated_text s1) (all_agent_text s1) [])
      as (r & w' & g & more & Ei & _).
    unfold bind. rewrite Ei.
    destruct (step_update (display s1 ++ w')
                (String.append (accumulated_text s1) g)
                (String.append (all_agent_text s1) g) ([] ++ more) s1 Hwf1)
      as (Hwf2 & L2 & M2).
    remember (update (display s1 ++ w') (String.append (accumulated_text s1) g)
                (String.append (all_agent_text s1) g) ([] ++ more) s1)
      as s2 eqn:Hs2. clear Hs2 Ei.
    destruct r as [r|e].
    + destruct (finish_submission_eq r paths s2 (proj1 Hwf2))
        as (m & h' & d' & k' & Ef & _ & Hlocs).
      rewrite Ef. cbn [snd].
      destruct (step_store k' m h' d' s2 Hwf2 Hlocs) as [Hwf3 L3].
      cbv zeta in Hwf3, L3.
      split; [exact Hwf3|]. split.
      * exact (later_trans _ _ _ (later_trans _ _ _ L1 L2) L3).
      * right. exists [Message "user" prompt None None None; m].
        cbn [messages set_file_uploader_key set_messages].
        rewrite M2, M1, <- app_assoc. reflexivity.
    + cbn [snd]. split; [exact Hwf2|]. split.
      * exact (later_trans _ _ _ L1 L2).
      * right. exists [Message "user" prompt None None None].
        rewrite M2, M1. reflexivity.
  - (* a replay *)
    destruct (shows_display_chat_messages s) as (r & w & E).
    unfold exec. rewrite E. cbn [snd].
    destruct (step_display (display s ++ w) s Hwf) as (H1 & H2 & H3).
    split; [exact H1|]. split; [exact H2|].
    right. exists []. rewrite app_nil_r. exact H3.
  - (* the transcript is cleared *)
    unfold exec, clear_chat_history, modify. cbn [snd].
    split; [|split].
    + split; [exact (proj1 Hwf) | intros m l []].
    + exact (later_refl s).
    + left. reflexivity.
  - (* one call of the callback *)
    destruct (callback_handler_update kw s (display s) (accumulated_text s)
                (all_agent_text s) []) as (r & w & g & more & E & _).
    rewrite update_id in E. unfold exec. rewrite E. cbn [snd].
    destruct (step_update (display s ++ w) (String.append (accumulated_text s) g)
                (String.append (all_agent_text s) g) ([] ++ more) s Hwf)
      as (H1 & H2 & H3).
    split; [exact H1|]. split; [exact H2|].
    right. exists []. rewrite app_nil_r. exact H3.
  - (* the buffers are reset *)
    unfold exec. rewrite reset_eq. cbn [snd].
    destruct (step_fresh (display s) [] (file_uploader_key s) s Hwf) as [H1 H2].
    { intros m []. }
    cbv zeta in H1, H2. rewrite app_nil_r in H1, H2.
    split; [exact H1|]. split; [exact H2|].
    right. exists []. rewrite app_nil_r. reflexivity.
Qed.

Lemma run_later (acts : list action) s :
  wf_session s -> wf_session (run acts s) /\ later s (run acts s).
Proof.
  revert s. induction acts as [|a acts IH]; intros s Hwf; cbn.
  - split; [exact Hwf | apply later_refl].
  - destruct (perform_step a s Hwf) as (H1 & H2 & _). cbv zeta in H1, H2.
    destruct (IH _ H1) as [H3 H4].
    split; [exact H3 | exact (later_trans _ _ _ H2 H4)].
Qed.

(** C8. In every session reached from the start, the turns stored so far
    are not changed by anything that follows: read from the heap after any
    later actions (submissions with their resets and callback calls,
    replays, clearing), each of them has the fields it had. The lists of a
    stored turn are list objects other than the three buffers, and one
    action either clears the transcript or extends it. *)
Theorem turns_are_immutable :
  forall (before after : list action) (a : action),
    let s := run before init_session in
    map (view_turn (heap (run after s))) (messages s) = transcript s /\
    (forall m l, In m (messages s) -> In l (message_locs m) ->
       l <> conversation_flow s /\ l <> current_message_tools s /\
       l <> current_message_results s) /\
    (messages (exec (perform a) s) = [] \/
     exists new, messages (exec (perform a) s) = messages s ++ new).
Proof.
  intros before after a. cbv zeta.
  destruct (run_later before init_session wf_session_init) as [Hwf _].
  remember (run before init_session) as s eqn:Hs. clear Hs.
  destruct (run_later after s Hwf) as [_ L].
  split; [|split].
  - unfold transcript. apply map_ext_in. intros m Hin.
    apply view_turn_later; [|exact L].
    intros l Hl. exact (proj2 Hwf m l Hin Hl).
  - intros m l Hin Hl. destruct (proj2 Hwf m l Hin Hl) as (_ & H1 & H2 & H3).
    tauto.
  - destruct (perform_step a s Hwf) as (_ & _ & H). exact H.
Qed.

Lemma turns_are_immutable_witness :
  let agent := fun _ : string => AgentRun scenario (Ok "done") in
  let s := run [Submit "first" [] agent] init_session in
  map (view_turn (heap (run [Submit "second" [] agent; Callback [("data", PStr "x")];
                             ResetBuffers; Replay] s)))
      (messages s)
  = transcript s.
Proof.
  cbv zeta.
  exact (proj1 (turns_are_immutable
                  [Submit "first" [] (fun _ => AgentRun scenario (Ok "done"))]
                  [Submit "second" [] (fun _ => AgentRun scenario (Ok "done"));
                   Callback [("data", PStr "x")]; ResetBuffers; Replay]
                  Replay)).
Defined.

(** * Further properties of the callback *)

(** ** Data that is not a string *)

(** X1. A truthy ["data"] that is not a string (a number, [True], a non-empty
    list or dict) makes the callback raise [TypeError] at the first [+=]
    (line 49); no buffer, list or widget has changed. *)
Theorem non_string_data_raises :
  forall (kw : dict) (v : pyval) (s : session_state),
    assoc "data" kw = Some v ->
    truthy v = true ->
    (forall t, v <> PStr t) ->
    callback_handler kw s = (Raise TypeError, s).
Proof.
  intros kw v s Hv Ht Hn. unfold callback_handler, has_data.
  rewrite Hv, Ht. unfold bind, lift, get, py_getitem. rewrite Hv.
  destruct v; try reflexivity. exfalso. exact (Hn s0 eq_refl).
Qed.

Lemma non_string_data_raises_witness :
  callback_handler [("data", PInt 5)] init_session
  = (Raise TypeError, init_session).
Proof.
  apply (non_string_data_raises [("data", PInt 5)] (PInt 5) init_session).
  - reflexivity.
  - reflexivity.
  - discriminate.
Defined.

(** ** Messages the callback rejects or ignores *)

(** X2. A ["message"] that is not a dict has no [get] (line 63): the callback
    raises [AttributeError] and changes nothing. A dict message whose
    role is ["assistant"] or ["user"] and whose ["content"] cannot be
    iterated ([None], a number, a boolean) raises [TypeError] and changes
    nothing. *)
Theorem malformed_message_raises :
  forall (m : pyval) (d : dict) (c : pyval) (s : session_state),
    ((forall x, m <> PDict x) ->
     handle_message m s = (Raise AttributeError, s)) /\
    ((assoc "role" d = Some (PStr "assistant") \/
      assoc "role" d = Some (PStr "user")) ->
     assoc "content" d = Some c ->
     py_iter c = Raise TypeError ->
     handle_message (PDict d) s = (Raise TypeError, s)).
Proof.
  intros m d c s. split.
  - intros Hm. destruct m; try reflexivity. exfalso. exact (Hm d0 eq_refl).
  - intros Hr Hc Hi. unfold handle_message, bind, lift, ret, py_get, py_in,
      py_getitem, dict_in.
    destruct Hr as [Hr|Hr]; rewrite Hr; cbn; rewrite Hc, Hi; reflexivity.
Qed.

Lemma malformed_message_raises_witness :
  handle_message PNone init_session = (Raise AttributeError, init_session) /\
  handle_message (PDict [("role", PStr "user"); ("content", PInt 3)]) init_session
  = (Raise TypeError, init_session).
Proof.
  split.
  - apply (malformed_message_raises PNone [] PNone init_session). discriminate.
  - apply (malformed_message_raises PNone
             [("role", PStr "user"); ("content", PInt 3)] (PInt 3) init_session).
    + right. reflexivity.
    + reflexivity.
    + reflexivity.
Defined.

Lemma is_substring_char (k : string) (c : ascii) :
  2 <= String.length k -> is_substring k (String c EmptyString) = false.
Proof.
  destruct k as [|a [|b k]]; cbn; try lia. intros _.
  destruct (ascii_dec a c); reflexivity.
Qed.

Lemma for_each_chars (body : pyval -> M unit) (str : string) s :
  (forall c, body (PStr (String c EmptyString)) s = (Ok tt, s)) ->
  for_each (chars str) body s = (Ok tt, s).
Proof.
  intros Hb. induction str as [|c str IH]; cbn; [reflexivity|].
  unfold bind. rewrite Hb. exact IH.
Qed.

(** X3. A dict message is skipped, without a raise and without any change,
    when its role is neither ["assistant"] nor ["user"] (a missing role
    included), when it has no ["content"], and when its content is a
    string: the loop then runs over the characters, none of which
    contains a key. *)
Theorem ignored_messages :
  forall (d : dict) (s : session_state),
    let r := match assoc "role" d with Some x => x | None => PNone end in
    (py_eq_str r "assistant" = false -> py_eq_str r "user" = false ->
     handle_message (PDict d) s = (Ok tt, s)) /\
    (assoc "content" d = None -> handle_message (PDict d) s = (Ok tt, s)) /\
    (forall str, assoc "content" d = Some (PStr str) ->
                 handle_message (PDict d) s = (Ok tt, s)).
Proof.
  intros d s. cbv zeta.
  unfold handle_message, bind, lift, ret, py_get, py_in, py_getitem, dict_in.
  split; [|split].
  - intros Ha Hu. rewrite Ha, Hu. reflexivity.
  - intros Hc. rewrite Hc.
    destruct (py_eq_str _ "assistant"), (py_eq_str _ "user"); reflexivity.
  - intros str Hc. rewrite Hc.
    assert (Ea : for_each (chars str) assistant_content s = (Ok tt, s)).
    { apply for_each_chars. intros c. unfold assistant_content, bind, lift, py_in.
      rewrite !is_substring_char by (cbn; lia). reflexivity. }
    assert (Eu : for_each (chars str) user_content s = (Ok tt, s)).
    { apply for_each_chars. intros c. unfold user_content, bind, lift, py_in.
      rewrite !is_substring_char by (cbn; lia). reflexivity. }
    destruct (py_eq_str _ "assistant"); cbn; [exact Ea|].
    destruct (py_eq_str _ "user"); cbn; [exact Eu | reflexivity].
Qed.

Lemma ignored_messages_witness :
  handle_message (PDict [("role", PStr "system"); ("content", PList [])])
                 init_session = (Ok tt, init_session) /\
  handle_message (PDict [("role", PStr "assistant")]) init_session
  = (Ok tt, init_session) /\
  handle_message (PDict [("role", PStr "assistant"); ("content", PStr "text")])
                 init_session = (Ok tt, init_session).
Proof.
  split; [|split].
  - exact (proj1 (ignored_messages
                    [("role", PStr "system"); ("content", PList [])]
                    init_session) eq_refl eq_refl).
  - exact (proj1 (proj2 (ignored_messages [("role", PStr "assistant")]
                           init_session)) eq_refl).
  - exact (proj2 (proj2 (ignored_messages
                           [("role", PStr "assistant"); ("content", PStr "text")]
                           init_session)) "text" eq_refl).
Defined.

(** ** Tool results *)

(** X4. A tool result whose status is not the string "success" (a missing
    status included) never makes the callback raise, whatever its content
    is: the error badge is shown first and the record is stored. *)
Theorem failed_result_never_raises :
  forall (result rest : dict) (s : session_state),
    wf_buffers s ->
    let st := match assoc "status" result with Some x => x | None => PNone end in
    let c := match assoc "content" result with
             | Some x => x
             | None => PList []
             end in
    let content := PDict (("toolResult", PDict result) :: rest) in
    py_eq_str st "success" = false ->
    eval (user_content content) s = Ok tt /\
    flow_log (exec (user_content content) s)
    = flow_log s ++ [ToolResult (result_info st c)] /\
    tool_results (exec (user_content content) s)
    = tool_results s ++ [result_info st c] /\
    exists more,
      display (exec (user_content content) s)
      = display s ++ ErrorBadge (match assoc "status" result with
                                 | Some x => x
                                 | None => PStr "Failed"
                                 end) :: more.
Proof.
  intros result rest s Hwf. cbv zeta. intros Hst.
  destruct (failed_result_update result rest s Hst) as [w E].
  unfold eval, exec. rewrite E. cbn [fst snd].
  rewrite flow_log_update, tool_results_update by exact Hwf.
  split; [reflexivity|]. split; [reflexivity|]. split; [reflexivity|].
  exists w. reflexivity.
Qed.

Lemma failed_result_never_raises_witness :
  eval (user_content (PDict [("toolResult", PDict [("content", PInt 7)])]))
       init_session = Ok tt.
Proof.
  apply (failed_result_never_raises [("content", PInt 7)] [] init_session
           wf_buffers_init).
  reflexivity.
Defined.

(** X5. What the callback accepts, the replay may reject: a failed tool
    result whose content cannot be iterated ([None], a number, a boolean)
    is stored without a raise, and the replay of the flow item stored for
    it raises [TypeError] inside the expander, which is entered and left
    after the badge, in whatever session it is replayed. *)
Theorem stored_result_breaks_replay :
  forall (result rest : dict) (c : pyval) (s : session_state),
    wf_buffers s ->
    let st := match assoc "status" result with Some x => x | None => PNone end in
    let content := PDict (("toolResult", PDict result) :: rest) in
    py_eq_str st "success" = false ->
    assoc "content" result = Some c ->
    py_iter c = Raise TypeError ->
    eval (user_content content) s = Ok tt /\
    exists item,
      flow_log (exec (user_content content) s) = flow_log s ++ [item] /\
      forall s',
        show_flow_item item s'
        = (Raise TypeError,
           set_display (display s' ++
                        [ErrorBadge st; ExpanderOpen "Tool Result" false;
                         ExpanderClose]) s').
Proof.
  intros result rest c s Hwf. cbv zeta. intros Hst Hc Hi.
  destruct (failed_result_update result rest s Hst) as [w E].
  unfold eval, exec. rewrite E. cbn [fst snd].
  rewrite flow_log_update by exact Hwf.
  split; [reflexivity|].
  rewrite Hc. eexists. split; [reflexivity|].
  intros s'. unfold show_flow_item, show_result, result_info, ToolResult.
  unfold within, exiting, bind, lift, py_getitem, py_get.
  cbn [assoc String.eqb Ascii.eqb Bool.eqb].
  cbn. rewrite Hst. cbn. rewrite Hi.
  unfold set_display. cbn. rewrite <- !app_assoc. reflexivity.
Qed.

Lemma stored_result_breaks_replay_witness :
  eval (user_content
          (PDict [("toolResult",
                   PDict [("status", PStr "error"); ("content", PNone)])]))
       init_session = Ok tt /\
  exists item,
    flow_log (exec (user_content
                      (PDict [("toolResult",
                               PDict [("status", PStr "error");
                                      ("content", PNone)])]))
                   init_session)
    = flow_log init_session ++ [item] /\
    forall s',
      show_flow_item item s'
      = (Raise TypeError,
         set_display (display s' ++
                      [ErrorBadge (PStr "error");
                       ExpanderOpen "Tool Result" false; ExpanderClose]) s').
Proof.
  apply (stored_result_breaks_replay
           [("status", PStr "error"); ("content", PNone)] [] PNone
           init_session wf_buffers_init); reflexivity.
Defined.

(** X6. A successful tool result whose content is truthy and cannot be
    iterated (a number, [True]) makes the callback raise [TypeError]
    inside the expander, which is entered and left after the success
    badge, and before anything is stored: the three lists are as they
    were. *)
Theorem successful_result_bad_content_raises :
  forall (result rest : dict) (c : pyval) (s : session_state),
    assoc "status" result = Some (PStr "success") ->
    assoc "content" result = Some c ->
    truthy c = true ->
    py_iter c = Raise TypeError ->
    let content := PDict (("toolResult", PDict result) :: rest) in
    user_content content s
    = (Raise TypeError,
       set_display (display s ++
                    [SuccessBadge; ExpanderOpen "Tool Result" true;
                     ExpanderClose]) s).
Proof.
  intros result rest c s Hs Hc Ht Hi. cbv zeta.
  unfold user_content, show_result_live, within, exiting, bind, lift, py_get,
    py_in, py_getitem, dict_in.
  cbn [assoc String.eqb Ascii.eqb Bool.eqb].
  rewrite Hs, Hc. cbn [py_eq_str String.eqb Ascii.eqb Bool.eqb].
  rewrite Ht, Hi.
  unfold show, modify, set_display. cbn. rewrite <- !app_assoc. reflexivity.
Qed.

Lemma successful_result_bad_content_raises_witness :
  user_content
    (PDict [("toolResult", PDict [("status", PStr "success"); ("content", PInt 4)])])
    init_session
  = (Raise TypeError,
     set_display [SuccessBadge; ExpanderOpen "Tool Result" true; ExpanderClose]
       init_session).
Proof.
  apply (successful_result_bad_content_raises
           [("status", PStr "success"); ("content", PInt 4)] [] (PInt 4)
           init_session); reflexivity.
Defined.

(** ** A raise in the middle of a message *)

(** X7. The callback is not atomic: when an assistant message has elements of
    the documented shapes followed by a tool use without a name, the
    callback raises [KeyError] and the flow log has received the items of
    the elements before it. *)
Theorem raise_keeps_earlier_items :
  forall (els : list element) (tool_use : dict) (after : list pyval)
         (s : session_state),
    wf_buffers s ->
    assoc "name" tool_use = None ->
    let message :=
      PDict [("role", PStr "assistant");
             ("content",
              PList (map encode_element els ++
                     PDict [("toolUse", PDict tool_use)] :: after))] in
    eval (handle_message message) s = Raise (KeyError "name") /\
    flow_log (exec (handle_message message) s)
    = flow_log s ++ flat_map assistant_items els.
Proof.
  intros els tool_use after s Hwf Hn. cbv zeta.
  destruct (runs_assistant_elements els) as [w Hw].
  assert (E : handle_message
                (PDict [("role", PStr "assistant");
                        ("content",
                         PList (map encode_element els ++
                                PDict [("toolUse", PDict tool_use)] :: after))]) s
              = (Raise (KeyError "name"),
                 update (display s ++ w) (accumulated_text s) (all_agent_text s)
                   (flat_map assistant_adds els) s)).
  { change (handle_message _ s)
      with (for_each (map encode_element els ++
                      PDict [("toolUse", PDict tool_use)] :: after)
              assistant_content s).
    rewrite for_each_app.
    rewrite <- (update_id s) at 1. rewrite Hw. cbn [app for_each].
    unfold bind at 1. unfold assistant_content at 1.
    unfold bind, lift, py_in, py_getitem, dict_in.
    cbn [assoc String.eqb Ascii.eqb Bool.eqb]. rewrite Hn. reflexivity. }
  unfold eval, exec. rewrite E. cbn [fst snd]. split; [reflexivity|].
  rewrite flow_log_update by exact Hwf. rewrite added_flow_assistant. reflexivity.
Qed.

Lemma raise_keeps_earlier_items_witness :
  eval (handle_message
          (PDict [("role", PStr "assistant");
                  ("content",
                   PList [PDict [("text", PStr "a")];
                          PDict [("toolUse", PDict [])];
                          PDict [("text", PStr "b")]])]))
       init_session = Raise (KeyError "name") /\
  flow_log (exec (handle_message
                    (PDict [("role", PStr "assistant");
                            ("content",
                             PList [PDict [("text", PStr "a")];
                                    PDict [("toolUse", PDict [])];
                                    PDict [("text", PStr "b")]])]))
                 init_session)
  = flow_log init_session ++ [TextChunk (PStr "a")].
Proof.
  apply (raise_keeps_earlier_items [EText (PStr "a")] []
           [PDict [("text", PStr "b")]] init_session wf_buffers_init).
  reflexivity.
Defined.

(** * Properties of sessions *)

Lemma calls_of_app xs ys : calls_of (xs ++ ys) = calls_of xs ++ calls_of ys.
Proof. apply flat_map_app. Qed.

Lemma results_of_app xs ys :
  results_of (xs ++ ys) = results_of xs ++ results_of ys.
Proof. apply flat_map_app. Qed.

Lemma stored_turns_later s s' :
  wf_session s -> later s s' ->
  (forall m, In m (messages s) -> stored_turn (view_turn (heap s) m)) ->
  forall m, In m (messages s) -> stored_turn (view_turn (heap s') m).
Proof.
  intros Hwf L H m Hin.
  rewrite (view_turn_later s s' m); [exact (H m Hin) | | exact L].
  intros l Hl. exact (proj2 Hwf m l Hin Hl).
Qed.

Lemma coherent_init : coherent init_session.
Proof.
  split; [exact wf_session_init|].
  split; [reflexivity|]. split; [reflexivity|]. split; [reflexivity|].
  split; [reflexivity|]. split; [intros m []|].
  unfold assistant_messages, user_messages. cbn. lia.
Qed.

Lemma coherent_display d s : coherent s -> coherent (set_display d s).
Proof. intros H. exact H. Qed.

Lemma coherent_clear s : coherent s -> coherent (set_messages [] s).
Proof.
  intros (Hwf & Hc & Hr & Ht & Hm & _ & _).
  split; [split; [exact (proj1 Hwf) | intros m l []]|].
  split; [exact Hc|]. split; [exact Hr|]. split; [exact Ht|].
  split; [exact Hm|]. split; [intros m []|].
  unfold assistant_messages, user_messages. cbn. lia.
Qed.

Lemma coherent_update d g adds s :
  coherent s ->
  coherent (update d (String.append (accumulated_text s) g)
              (String.append (all_agent_text s) g) adds s).
Proof.
  intros (Hwf & Hc & Hr & Ht & Hm & Hturns & Hn).
  destruct (step_update d (String.append (accumulated_text s) g)
              (String.append (all_agent_text s) g) adds s Hwf)
    as (Hwf' & L & M).
  split; [exact Hwf'|].
  rewrite tool_calls_update, tool_results_update, flow_log_update
    by exact (proj1 Hwf).
  rewrite calls_of_app, results_of_app, calls_of_added, results_of_added.
  split; [rewrite Hc; reflexivity|]. split; [rewrite Hr; reflexivity|].
  split; [cbn; rewrite Ht; reflexivity|]. split; [exact Hm|].
  split; [|exact Hn].
  exact (stored_turns_later s _ Hwf L Hturns).
Qed.

Lemma filter_length_app {A} (f : A -> bool) (xs ys : list A) :
  length (List.filter f (xs ++ ys)) = length (List.filter f xs) + length (List.filter f ys).
Proof.
  induction xs as [|x xs IH]; cbn; [reflexivity|].
  destruct (f x); cbn; rewrite IH; reflexivity.
Qed.

(** Three new buffers, and possibly the user turn of a submission. *)
Lemma coherent_fresh d k new s :
  coherent s ->
  (new = [] \/ exists prompt, new = [Message "user" prompt None None None]) ->
  let s' := SessionState (((heap s ++ [[]]) ++ [[]]) ++ [[]]) d
              (messages s ++ new) k ""
              (length (heap s)) (S (length (heap s))) "" ""
              (S (S (length (heap s)))) in
  coherent s' /\
  assistant_messages s' = assistant_messages s /\
  user_messages s' = user_messages s + length new.
Proof.
  intros (Hwf & Hc & Hr & Ht & Hm & Hturns & Hn) Hnew. cbv zeta.
  assert (Hlocs : forall m, In m new -> message_locs m = []).
  { destruct Hnew as [->|[prompt ->]]; [intros m []|].
    intros m [<-|[]]. reflexivity. }
  destruct (step_fresh d new k s Hwf Hlocs) as [Hwf' L]. cbv zeta in Hwf', L.
  destruct (fresh_buffers (heap s) d (messages s ++ new) k) as (_ & Ff & Ftc & Ftr).
  cbv zeta in Ff, Ftc, Ftr.
  assert (Ha : assistant_messages
                 (SessionState (((heap s ++ [[]]) ++ [[]]) ++ [[]]) d
                    (messages s ++ new) k "" (length (heap s))
                    (S (length (heap s))) "" "" (S (S (length (heap s)))))
               = assistant_messages s).
  { unfold assistant_messages. cbn [messages]. rewrite filter_length_app.
    destruct Hnew as [->|[prompt ->]]; cbn; lia. }
  assert (Hu : user_messages
                 (SessionState (((heap s ++ [[]]) ++ [[]]) ++ [[]]) d
                    (messages s ++ new) k "" (length (heap s))
                    (S (length (heap s))) "" "" (S (S (length (heap s)))))
               = user_messages s + length new).
  { unfold user_messages. cbn [messages]. rewrite filter_length_app.
    destruct Hnew as [->|[prompt ->]]; cbn; lia. }
  split; [|split; [exact Ha | exact Hu]].
  split; [exact Hwf'|].
  rewrite Ff, Ftc, Ftr.
  split; [reflexivity|]. split; [reflexivity|]. split; [reflexivity|].
  split; [reflexivity|]. split; [|rewrite Ha, Hu; lia].
  cbn [messages heap]. intros m Hin.
  apply in_app_or in Hin. destruct Hin as [Hin|Hin].
  - exact (stored_turns_later s _ Hwf L Hturns m Hin).
  - destruct Hnew as [->|[prompt ->]]; [destruct Hin|].
    destruct Hin as [<-|[]]. left. repeat split.
Qed.

(** The assistant turn of a submission is stored. *)
Lemma coherent_store k m h' d txt s :
  coherent s ->
  assistant_messages s < user_messages s ->
  view_turn (heap s ++ h') m
  = Turn "assistant" txt
         (Some (flow_log s)) (if_nonempty (tool_calls s))
         (if_nonempty (tool_results s)) ->
  (forall l, In l (message_locs m) ->
             length (heap s) <= l /\ l < length (heap s ++ h')) ->
  let s' := set_file_uploader_key k
              (set_messages (messages s ++ [m])
                 (set_heap (heap s ++ h') (set_display d s))) in
  coherent s' /\
  assistant_messages s' = S (assistant_messages s) /\
  user_messages s' = user_messages s.
Proof.
  intros (Hwf & Hc & Hr & Ht & Hm & Hturns & Hn) Hlt V Hlocs. cbv zeta.
  destruct (step_store k m h' d s Hwf Hlocs) as [Hwf' L]. cbv zeta in Hwf', L.
  destruct (proj1 Hwf) as (Hf & Htl & Hrl & _).
  assert (Hrole : role m = "assistant").
  { apply (f_equal turn_role) in V. exact V. }
  assert (Ha : assistant_messages
                 (set_file_uploader_key k
                    (set_messages (messages s ++ [m])
                       (set_heap (heap s ++ h') (set_display d s))))
               = S (assistant_messages s)).
  { unfold assistant_messages. cbn [messages set_file_uploader_key set_messages].
    rewrite filter_length_app. cbn. rewrite Hrole. cbn. lia. }
  assert (Hu : user_messages
                 (set_file_uploader_key k
                    (set_messages (messages s ++ [m])
                       (set_heap (heap s ++ h') (set_display d s))))
               = user_messages s).
  { unfold user_messages. cbn [messages set_file_uploader_key set_messages].
    rewrite filter_length_app. cbn. rewrite Hrole. cbn. lia. }
  split; [|split; [exact Ha | exact Hu]].
  split; [exact Hwf'|].
  unfold tool_calls, tool_results, flow_log.
  cbn [heap conversation_flow current_message_tools current_message_results
       set_file_uploader_key set_messages set_heap set_display].
  rewrite !deref_app_l by assumption.
  split; [exact Hc|]. split; [exact Hr|]. split; [exact Ht|].
  split; [exact Hm|]. split; [|rewrite Ha, Hu; lia].
  cbn [messages heap set_file_uploader_key set_messages set_heap set_display].
  intros m0 Hin. apply in_app_or in Hin. destruct Hin as [Hin|[<-|[]]].
  - exact (stored_turns_later s _ Hwf L Hturns m0 Hin).
  - rewrite V. right. split; [reflexivity|].
    exists (flow_log s). split; [reflexivity|].
    rewrite Hc, Hr. split; reflexivity.
Qed.

(** What one submission with a prompt does to a session. *)
Lemma submission_step (prompt : string) (paths : list string)
    (agent : string -> agent_run) s :
  coherent s -> prompt <> "" ->
  let s' := exec (chat_input prompt paths agent) s in
  coherent s' /\
  match eval (chat_input prompt paths agent) s with
  | Ok _ =>
      (exists m, messages s'
                 = messages s ++ [Message "user" prompt None None None; m] /\
                 role m = "assistant") /\
      file_uploader_key s'
      = match paths with
        | [] => file_uploader_key s
        | _ :: _ => (file_uploader_key s + 1)%Z
        end
  | Raise _ =>
      messages s' = messages s ++ [Message "user" prompt None None None] /\
      file_uploader_key s' = file_uploader_key s
  end.
Proof.
  intros Hco Hp. cbv zeta. unfold exec, eval.
  destruct (chat_input prompt paths agent s) as [res s'] eqn:E.
  cbn [fst snd]. rewrite chat_input_eq in E by exact Hp.
  destruct (begin_submission_eq prompt paths s) as [w Eb].
  unfold bind at 1 in E. rewrite Eb in E.
  destruct (coherent_fresh (display s ++ w) (file_uploader_key s)
              [Message "user" prompt None None None] s Hco)
    as (Hco1 & A1 & U1).
  { right. exists prompt. reflexivity. }
  cbv zeta in Hco1, A1, U1.
  remember (SessionState (((heap s ++ [[]]) ++ [[]]) ++ [[]]) (display s ++ w)
              (messages s ++ [Message "user" prompt None None None])
              (file_uploader_key s) "" (length (heap s)) (S (length (heap s)))
              "" "" (S (S (length (heap s))))) as s1 eqn:Hs1.
  assert (M1 : messages s1 = messages s ++ [Message "user" prompt None None None])
    by (rewrite Hs1; reflexivity).
  assert (K1 : file_uploader_key s1 = file_uploader_key s)
    by (rewrite Hs1; reflexivity).
  clear Hs1 Eb.
  rewrite <- (update_id s1) in E.
  destruct (agent_call_update (agent (full_prompt prompt paths)) s1
              (display s1) (accumulated_text s1) (all_agent_text s1) [])
    as (r & w' & g & more & Ei & _).
  unfold bind in E. rewrite Ei in E.
  pose proof (coherent_update (display s1 ++ w') g ([] ++ more) s1 Hco1) as Hco2.
  remember (update (display s1 ++ w') (String.append (accumulated_text s1) g)
              (String.append (all_agent_text s1) g) ([] ++ more) s1)
    as s2 eqn:Hs2.
  assert (M2 : messages s2 = messages s1) by (rewrite Hs2; reflexivity).
  assert (K2 : file_uploader_key s2 = file_uploader_key s1)
    by (rewrite Hs2; reflexivity).
  assert (A2 : assistant_messages s2 = assistant_messages s1)
    by (unfold assistant_messages; rewrite M2; reflexivity).
  assert (U2 : user_messages s2 = user_messages s1)
    by (unfold user_messages; rewrite M2; reflexivity).
  clear Hs2 Ei.
  destruct r as [r|e].
  - destruct (finish_submission_full r paths s2 (proj1 (proj1 Hco2)))
      as (m & h' & Ef & V & Hlocs).
    rewrite Ef in E. injection E as <- <-.
    destruct (coherent_store
                (match paths with
                 | [] => file_uploader_key s2
                 | _ :: _ => (file_uploader_key s2 + 1)%Z
                 end) m h' (display s2)
                (if negb (String.eqb (all_agent_text s2) "")
                 then all_agent_text s2 else r) s2 Hco2) as (Hco3 & _ & _).
    { destruct Hco as (_ & _ & _ & _ & _ & _ & Hn).
      rewrite A2, U2, A1, U1. cbn. lia. }
    { exact V. }
    { exact Hlocs. }
    cbv zeta in Hco3.
    split; [exact Hco3|]. split.
    + exists m. split.
      * cbn [messages set_file_uploader_key set_messages].
        rewrite M2, M1, <- app_assoc. reflexivity.
      * apply (f_equal turn_role) in V. exact V.
    + cbn [file_uploader_key set_file_uploader_key]. rewrite K2, K1.
      reflexivity.
  - injection E as <- <-. split; [exact Hco2|].
    split; [rewrite M2, M1; reflexivity | rewrite K2, K1; reflexivity].
Qed.

Lemma perform_coherent (a : action) s :
  coherent s -> coherent (exec (perform a) s).
Proof.
  intros Hco. destruct a as [prompt paths agent| | |kw|]; cbn [perform].
  - destruct (String.eqb_spec prompt "") as [->|Hp].
    + exact Hco.
    + exact (proj1 (submission_step prompt paths agent s Hco Hp)).
  - destruct (shows_display_chat_messages s) as (r & w & E).
    unfold exec. rewrite E. cbn [snd].
    exact (coherent_display (display s ++ w) s Hco).
  - exact (coherent_clear s Hco).
  - destruct (callback_handler_update kw s (display s) (accumulated_text s)
                (all_agent_text s) []) as (r & w & g & more & E & _).
    rewrite update_id in E. unfold exec. rewrite E. cbn [snd].
    exact (coherent_update (display s ++ w) g ([] ++ more) s Hco).
  - unfold exec. rewrite reset_eq. cbn [snd].
    destruct (coherent_fresh (display s) (file_uploader_key s) [] s Hco)
      as [H _]; [left; reflexivity|].
    cbv zeta in H. rewrite app_nil_r in H. exact H.
Qed.

Lemma run_coherent (acts : list action) s :
  coherent s -> coherent (run acts s).
Proof.
  revert s. induction acts as [|a acts IH]; intros s Hco; cbn.
  - exact Hco.
  - apply IH. exact (perform_coherent a s Hco).
Qed.

(** ** Invariants of the sessions the page reaches *)

(** X8. In every session reached from the start by submissions, replays,
    clearing, single callback calls and resets, the tool-call list and the
    tool-result list are the flow log filtered to their variant: the
    callback appends to the flow log and to the list together, and a
    reset empties the three together. *)
Theorem buffers_follow_flow_log :
  forall (acts : list action),
    let s := run acts init_session in
    tool_calls s = calls_of (flow_log s) /\
    tool_results s = results_of (flow_log s).
Proof.
  intros acts. cbv zeta.
  destruct (run_coherent acts init_session coherent_init)
    as (_ & Hc & Hr & _).
  split; [exact Hc | exact Hr].
Qed.

(** X9. In every reachable session the two text buffers hold the same
    string, and [current_message_accumulated] is empty: it is reset and
    never written. *)
Theorem text_buffers_agree :
  forall (acts : list action),
    let s := run acts init_session in
    accumulated_text s = all_agent_text s /\
    current_message_accumulated s = "".
Proof.
  intros acts. cbv zeta.
  destruct (run_coherent acts init_session coherent_init)
    as (_ & _ & _ & Ht & Hm & _).
  split; [exact Ht | exact Hm].
Qed.

(** X10. Every turn of a reachable session is a user turn without lists or
    an assistant turn with a flow log; the tool-call and tool-result lists
    of an assistant turn are present exactly when they are not empty, and
    are then the flow log of the turn filtered to the variant. *)
Theorem stored_turns_shape :
  forall (acts : list action),
    Forall stored_turn (transcript (run acts init_session)).
Proof.
  intros acts.
  destruct (run_coherent acts init_session coherent_init)
    as (_ & _ & _ & _ & _ & Hturns & _).
  unfold transcript. apply List.Forall_forall. intros t Hin.
  apply in_map_iff in Hin. destruct Hin as (m & <- & Hin).
  exact (Hturns m Hin).
Qed.

Lemma role_count (ms : list message) :
  (forall m, In m ms -> role m = "user" \/ role m = "assistant") ->
  length (List.filter (fun m => String.eqb (role m) "user") ms) +
  length (List.filter (fun m => String.eqb (role m) "assistant") ms)
  = length ms.
Proof.
  induction ms as [|m ms IH]; intros H; [reflexivity|].
  specialize (IH (fun x Hx => H x (or_intror Hx))).
  destruct (H m (or_introl eq_refl)) as [E|E]; cbn; rewrite E; cbn; lia.
Qed.

Lemma stored_turn_tools h m :
  stored_turn (view_turn h m) ->
  length (stored_list h (m_tools m)) = length (turn_calls (view_turn h m)).
Proof.
  unfold turn_calls, view_turn. cbn [flow].
  intros [(_ & Hf & Hc & _)|(_ & fl & Hf & Hc & _)]; cbn in Hf, Hc.
  - rewrite Hf. destruct (m_tools m); [discriminate | reflexivity].
  - rewrite Hf. destruct (m_tools m) as [l|]; cbn in Hc |- *;
      destruct (calls_of fl); cbn in Hc; try discriminate.
    + injection Hc as ->. reflexivity.
    + reflexivity.
Qed.

(** X11. The statistics of the sidebar in a reachable session: every turn
    is counted as a user or as an assistant message, there is at least one
    user message and no more assistant than user messages, and the "Tool
    Calls" metric is the number of tool-call items in the flow logs of the
    transcript. *)
Theorem chat_statistics :
  forall (acts : list action) (u a t : nat),
    let s := run acts init_session in
    chat_stats s = Some (u, a, t) ->
    u + a = length (transcript s) /\ a <= u /\ 0 < u /\
    t = list_sum (map (fun x => length (turn_calls x)) (transcript s)).
Proof.
  intros acts u a t. cbv zeta.
  destruct (run_coherent acts init_session coherent_init)
    as (_ & _ & _ & _ & _ & Hturns & Hn).
  remember (run acts init_session) as s eqn:Hs. clear Hs.
  unfold chat_stats. intros H.
  assert (Hne : messages s <> []) by (destruct (messages s); [discriminate | discriminate]).
  assert (E : Some (user_messages s, assistant_messages s, total_tools s)
              = Some (u, a, t)) by (destruct (messages s); [discriminate | exact H]).
  injection E as <- <- <-. clear H.
  assert (Hsum : user_messages s + assistant_messages s = length (messages s)).
  { apply role_count. intros m Hin.
    destruct (Hturns m Hin) as [(Hr & _)|(Hr & _)]; [left | right]; exact Hr. }
  unfold transcript. rewrite length_map.
  split; [exact Hsum|]. split; [exact Hn|]. split.
  - destruct (messages s); [contradiction|]. cbn [length] in Hsum. lia.
  - unfold total_tools. rewrite map_map. f_equal.
    apply map_ext_in. intros m Hin.
    exact (stored_turn_tools (heap s) m (Hturns m Hin)).
Qed.

Lemma chat_statistics_witness :
  1 + 1 = length (transcript (run [Submit "list the files" [] listing_agent]
                                init_session)) /\ 1 <= 1 /\ 0 < 1 /\
  1 = list_sum (map (fun x => length (turn_calls x))
                    (transcript (run [Submit "list the files" [] listing_agent]
                                   init_session))).
Proof.
  apply (chat_statistics [Submit "list the files" [] listing_agent] 1 1 1).
  vm_compute. reflexivity.
Defined.

(** ** Submissions *)

(** X12. A submission that returns extends the transcript by exactly two
    turns and leaves the turns before them as they were: a user turn that
    holds the prompt as typed (without the note about uploaded files that
    the agent receives) and has no lists, and one assistant turn with its
    flow log. *)
Theorem returning_submission_adds_two_turns :
  forall (acts : list action) (prompt : string) (paths : list string)
         (agent : string -> agent_run),
    let s := run acts init_session in
    let s' := exec (chat_input prompt paths agent) s in
    prompt <> "" ->
    eval (chat_input prompt paths agent) s = Ok tt ->
    exists text fl,
      transcript s'
      = transcript s ++
        [Turn "user" prompt None None None;
         Turn "assistant" text (Some fl) (if_nonempty (calls_of fl))
              (if_nonempty (results_of fl))].
Proof.
  intros acts prompt paths agent. cbv zeta. intros Hp Hev.
  pose proof (run_coherent acts init_session coherent_init) as Hco.
  remember (run acts init_session) as s eqn:Hs. clear Hs.
  destruct (submission_step prompt paths agent s Hco Hp) as [Hco' H].
  destruct (perform_step (Submit prompt paths agent) s (proj1 Hco))
    as (_ & L & _).
  cbv zeta in Hco', H, L. cbn [perform] in L. rewrite Hev in H.
  destruct H as [(m & Em & Hr) _].
  destruct Hco' as (_ & _ & _ & _ & _ & Hturns & _).
  specialize (Hturns m). rewrite Em in Hturns.
  assert (Hin : In m (messages s ++ [Message "user" prompt None None None; m]))
    by (apply in_or_app; right; right; left; reflexivity).
  specialize (Hturns Hin). clear Hin.
  unfold transcript at 1. rewrite Em, map_app. cbn [map].
  assert (Eold : map (view_turn (heap (exec (chat_input prompt paths agent) s)))
                     (messages s) = transcript s).
  { unfold transcript. apply map_ext_in. intros m0 Hin.
    apply view_turn_later; [|exact L].
    intros l Hl. exact (proj2 (proj1 Hco) m0 l Hin Hl). }
  rewrite Eold.
  destruct Hturns as [(Hu & _)|(_ & fl & Hf & Hc & Hre)].
  - cbn in Hu. rewrite Hr in Hu. discriminate.
  - exists (content m), fl. f_equal. f_equal. f_equal.
    unfold view_turn in *. cbn in Hf, Hc, Hre.
    rewrite Hr, Hf, Hc, Hre. reflexivity.
Qed.

Lemma returning_submission_adds_two_turns_witness :
  exists text fl,
    transcript (exec (chat_input "hello" ["uploads/a.txt"]
                        (fun _ => AgentRun [] (Ok "hi")))
                     (run [] init_session))
    = transcript (run [] init_session) ++
      [Turn "user" "hello" None None None;
       Turn "assistant" text (Some fl) (if_nonempty (calls_of fl))
            (if_nonempty (results_of fl))].
Proof.
  apply (returning_submission_adds_two_turns [] "hello" ["uploads/a.txt"]
           (fun _ => AgentRun [] (Ok "hi"))).
  - discriminate.
  - vm_compute. reflexivity.
Defined.

(** X13. The key of the file uploader after a submission: it is one more
    than before when files were uploaded and the submission returned, and
    unchanged otherwise; so after a failed agent call the uploader still
    holds its files. *)
Theorem uploader_key_after_submission :
  forall (acts : list action) (prompt : string) (paths : list string)
         (agent : string -> agent_run),
    let s := run acts init_session in
    let s' := exec (chat_input prompt paths agent) s in
    prompt <> "" ->
    file_uploader_key s'
    = match eval (chat_input prompt paths agent) s, paths with
      | Ok _, _ :: _ => (file_uploader_key s + 1)%Z
      | _, _ => file_uploader_key s
      end.
Proof.
  intros acts prompt paths agent. cbv zeta. intros Hp.
  destruct (submission_step prompt paths agent (run acts init_session)
              (run_coherent acts init_session coherent_init) Hp) as [_ H].
  cbv zeta in H.
  destruct (eval (chat_input prompt paths agent) (run acts init_session))
    as [x|e].
  - destruct H as [_ H]. rewrite H. destruct paths; reflexivity.
  - destruct H as [_ H]. rewrite H. destruct paths; reflexivity.
Qed.

Lemma uploader_key_after_submission_witness :
  file_uploader_key
    (exec (chat_input "hello" ["uploads/a.txt"]
             (fun _ => AgentRun [] (Ok "hi"))) init_session) = 1%Z /\
  file_uploader_key
    (exec (chat_input "hello" ["uploads/a.txt"]
             (fun _ => AgentRun [] (Raise AgentFailure))) init_session) = 0%Z.
Proof.
  split.
  - apply (uploader_key_after_submission [] "hello" ["uploads/a.txt"]
             (fun _ => AgentRun [] (Ok "hi"))). discriminate.
  - apply (uploader_key_after_submission [] "hello" ["uploads/a.txt"]
             (fun _ => AgentRun [] (Raise AgentFailure))). discriminate.
Defined.

(** X14. The "clear history" button empties the transcript and nothing
    else, and the page goes on from there: a returning submission that
    follows leaves a transcript of exactly its two turns. *)
Theorem clear_then_submit :
  forall (acts : list action) (prompt : string) (paths : list string)
         (agent : string -> agent_run),
    let s := exec clear_chat_history (run acts init_session) in
    let s' := exec (chat_input prompt paths agent) s in
    prompt <> "" ->
    eval (chat_input prompt paths agent) s = Ok tt ->
    transcript s = [] /\
    exists text fl,
      transcript s'
      = [Turn "user" prompt None None None;
         Turn "assistant" text (Some fl) (if_nonempty (calls_of fl))
              (if_nonempty (results_of fl))].
Proof.
  intros acts prompt paths agent. cbv zeta. intros Hp Hev.
  split; [reflexivity|].
  pose proof (coherent_clear _ (run_coherent acts init_session coherent_init))
    as Hco.
  change (set_messages [] (run acts init_session))
    with (exec clear_chat_history (run acts init_session)) in Hco.
  remember (exec clear_chat_history (run acts init_session)) as s eqn:Hs.
  assert (Hm : messages s = []) by (rewrite Hs; reflexivity).
  clear Hs.
  destruct (submission_step prompt paths agent s Hco Hp) as [Hco' H].
  cbv zeta in Hco', H. rewrite Hev in H.
  destruct H as [(m & Em & Hr) _]. rewrite Hm in Em. cbn [app] in Em.
  destruct Hco' as (_ & _ & _ & _ & _ & Hturns & _).
  specialize (Hturns m). rewrite Em in Hturns.
  specialize (Hturns (or_intror (or_introl eq_refl))).
  unfold transcript. rewrite Em. cbn [map].
  destruct Hturns as [(Hu & _)|(_ & fl & Hf & Hc & Hre)].
  - cbn in Hu. rewrite Hr in Hu. discriminate.
  - exists (content m), fl. f_equal. f_equal.
    unfold view_turn in *. cbn in Hf, Hc, Hre.
    rewrite Hr, Hf, Hc, Hre. reflexivity.
Qed.

Lemma clear_then_submit_witness :
  exists text fl,
    transcript
      (exec (chat_input "again" [] (fun _ => AgentRun [] (Ok "hi")))
         (exec clear_chat_history
            (run [Submit "first" [] (fun _ => AgentRun [] (Ok "one"))]
               init_session)))
    = [Turn "user" "again" None None None;
       Turn "assistant" text (Some fl) (if_nonempty (calls_of fl))
            (if_nonempty (results_of fl))].
Proof.
  apply (clear_then_submit
           [Submit "first" [] (fun _ => AgentRun [] (Ok "one"))]
           "again" [] (fun _ => AgentRun [] (Ok "hi"))).
  - discriminate.
  - vm_compute. reflexivity.
Defined.

(** ** Replay *)

(** X15. The replay changes the display and nothing else, whether it returns
    or raises: no turn, buffer, list object or key is written. *)
Theorem replay_only_displays :
  forall (s : session_state),
    exists w,
      exec display_chat_messages s = set_display (display s ++ w) s.
Proof.
  intros s. destruct (shows_display_chat_messages s) as (r & w & E).
  exists w. unfold exec. rewrite E. reflexivity.
Qed.

Lemma runs_for_each_app {A} (xs ys : list A) (body : A -> M unit) w1 w2 :
  runs (for_each xs body) tt w1 [] ->
  runs (for_each ys body) tt w2 [] ->
  runs (for_each (xs ++ ys) body) tt (w1 ++ w2) [].
Proof.
  intros H1 H2 s0 d a b adds. rewrite for_each_app, H1. cbv beta iota.
  rewrite H2, !app_nil_r, app_assoc. reflexivity.
Qed.

Lemma runs_for_each_flat_map {A B} (f : A -> list B) (xs : list A)
    (body : B -> M unit) (w : A -> list widget) :
  (forall x, runs (for_each (f x) body) tt (w x) []) ->
  runs (for_each (flat_map f xs) body) tt (flat_map w xs) [].
Proof.
  intros H. induction xs as [|x xs IH]; cbn [flat_map].
  - apply runs_ret.
  - apply runs_for_each_app; [apply H | exact IH].
Qed.

Lemma runs_one {A} (x : A) (body : A -> M unit) w :
  runs (body x) tt w [] -> runs (for_each [x] body) tt w [].
Proof.
  intros H. cbn [for_each]. eapply runs_eq.
  - eapply runs_bind; [exact H | apply runs_ret].
  - apply app_nil_r.
  - reflexivity.
Qed.

Lemma runs_flow_text t : runs (show_flow_item (TextChunk t)) tt [Write t] [].
Proof.
  unfold show_flow_item, TextChunk. cbn.
  eapply runs_eq; [ repeat runs_more | reflexivity | reflexivity ].
Qed.

Lemma runs_flow_call t :
  runs (show_flow_item (ToolCall (stored_call t))) tt (call_widgets t) [].
Proof.
  unfold show_flow_item, ToolCall. cbn. eapply runs_eq.
  - eapply runs_bind; [apply runs_lift|]. cbn.
    eapply runs_bind; [apply runs_lift|]. cbn.
    eapply runs_bind; [apply runs_lift|].
    apply runs_show_tool.
  - reflexivity.
  - reflexivity.
Qed.

Lemma runs_flow_result r :
  runs (show_flow_item (ToolResult (stored_parts_result r))) tt
       (result_widgets r) [].
Proof.
  unfold show_flow_item, ToolResult. cbn. eapply runs_eq.
  - eapply runs_bind; [apply runs_lift|]. cbn.
    eapply runs_bind; [apply runs_lift|]. cbn.
    eapply runs_bind; [apply runs_lift|]. cbn.
    eapply runs_bind; [apply runs_lift|].
    apply runs_show_result.
  - reflexivity.
  - reflexivity.
Qed.

Lemma runs_assistant_replay (e : element) :
  runs (for_each (assistant_items e) show_flow_item) tt (assistant_replay e) [].
Proof.
  destruct e as [t|n i id|st c]; cbn [assistant_items assistant_replay].
  - apply runs_one, runs_flow_text.
  - apply runs_one. exact (runs_flow_call (n, i, id)).
  - apply runs_ret.
Qed.

Lemma runs_user_replay (e : element) :
  runs (for_each (user_items e) show_flow_item) tt (user_replay e) [].
Proof.
  destruct e as [t|n i id|st c]; cbn [user_items user_replay].
  - apply runs_ret.
  - apply runs_ret.
  - apply runs_one.
    assert (E : stored_result st c
                = stored_parts_result
                    (match st with Some x => x | None => PNone end,
                     match c with Some ps => ps | None => [] end)).
    { destruct c; reflexivity. }
    rewrite E. apply runs_flow_result.
Qed.

Lemma runs_event_replay (tevs : list event) :
  runs (for_each (flat_map flow_items tevs) show_flow_item) tt
       (flat_map event_replay tevs) [].
Proof.
  apply runs_for_each_flat_map. intros ev.
  destruct ev; cbn [flow_items event_replay]; try apply runs_ret.
  - apply runs_for_each_flat_map, runs_assistant_replay.
  - apply runs_for_each_flat_map, runs_user_replay.
Qed.

(** The replay of an assistant turn that has a flow log. *)
Lemma show_message_flow (m : message) (l : loc) (w : list widget) s :
  role m = "assistant" ->
  m_conversation_flow m = Some l ->
  runs (for_each (deref (heap s) l) show_flow_item) tt w [] ->
  show_message m s
  = (Ok tt,
     set_display (display s ++ ChatMessageOpen "assistant" :: w ++
                  [ChatMessageClose]) s).
Proof.
  intros Hr Hl Hw. unfold show_message, show_message_body.
  rewrite Hr, Hl. cbn [String.eqb Ascii.eqb Bool.eqb].
  unfold within, exiting. unfold bind at 1. unfold show at 1, modify.
  unfold bind at 1. unfold get at 1.
  change (heap (set_display (display s ++ [ChatMessageOpen "assistant"]) s))
    with (heap s).
  rewrite (runs_plain _ _ _ _ Hw). unfold set_display. cbn.
  rewrite <- !app_assoc. reflexivity.
Qed.

(** X16. The replay of the turn stored for a run of documented events shows,
    between the opening and the closing of one assistant bubble, the
    widgets of the events in arrival order: a text as written, a tool
    call as badge and collapsed input, a tool result as badge and
    collapsed parts. Text deltas and tool fragments leave nothing to
    replay: the streamed text is not shown again. *)
Theorem replay_of_stored_turn :
  forall (s0 : session_state) (tevs : list event) (r : string),
    let s := exec (reset ;; feed (map encode tevs) ;;
                   store_assistant_message r) s0 in
    exists ms m,
      messages s = ms ++ [m] /\
      show_message m s
      = (Ok tt,
         set_display (display s ++ ChatMessageOpen "assistant" ::
                      flat_map event_replay tevs ++ [ChatMessageClose]) s).
Proof.
  intros s0 tevs r. cbv zeta. rewrite exec_reset_then.
  destruct (reset_buffers s0) as (Hwf & Hf & _).
  remember (exec reset s0) as s1 eqn:Hs1. clear Hs1.
  destruct (feed_typed_views tevs s1 Hwf) as (Ev & Ef & _ & _ & _ & Hwf2).
  cbv zeta in Ef, Hwf2.
  destruct (exec_bind (feed (map encode tevs))
              (fun _ => store_assistant_message r) s1 tt Ev) as [Ex _].
  rewrite Ex. rewrite Hf in Ef. cbn [app] in Ef.
  remember (exec (feed (map encode tevs)) s1) as s2 eqn:Hs2. clear Hs2 Ex Ev.
  destruct (store_assistant_message_spec r s2 Hwf2) as (m & h' & E & V & _).
  unfold exec. rewrite E. cbn [snd].
  exists (messages s2), m. split; [reflexivity|].
  assert (Hr : role m = "assistant") by exact (f_equal turn_role V).
  assert (Hfl : option_map (deref (heap s2 ++ h')) (m_conversation_flow m)
                = Some (flow_log s2)) by exact (f_equal flow V).
  destruct (m_conversation_flow m) as [l|] eqn:Hl; [|discriminate].
  cbn in Hfl. injection Hfl as Hfl.
  apply (show_message_flow m l); [exact Hr | exact Hl|].
  change (heap (set_messages (messages s2 ++ [m]) (set_heap (heap s2 ++ h') s2)))
    with (heap s2 ++ h').
  rewrite Hfl, Ef. apply runs_event_replay.
Qed.

(** X17. In a reachable session the replay never takes the legacy branch for
    an assistant turn, since every stored assistant turn has a flow log:
    its stored text, tool list and result list are not read. A user turn
    is replayed as its text. *)
Theorem reachable_replay_branches :
  forall (acts : list action) (m : message) (s' : session_state),
    In m (messages (run acts init_session)) ->
    (role m = "assistant" /\
     exists l, m_conversation_flow m = Some l /\
               show_message_body m s'
               = for_each (deref (heap s') l) show_flow_item s') \/
    (role m = "user" /\
     show_message_body m s'
     = (Ok tt,
        if negb (String.eqb (content m) "")
        then set_display (display s' ++ [Write (PStr (content m))]) s'
        else s')).
Proof.
  intros acts m s' Hin.
  destruct (run_coherent acts init_session coherent_init)
    as (_ & _ & _ & _ & _ & Hturns & _).
  destruct (Hturns m Hin) as [(Hr & Hf & _)|(Hr & fl & Hf & _)];
    cbn in Hr, Hf.
  - right. split; [exact Hr|].
    unfold show_message_body. rewrite Hr. cbn [String.eqb Ascii.eqb Bool.eqb].
    unfold bind. destruct (negb (content m =? "")%string); reflexivity.
  - left. split; [exact Hr|].
    destruct (m_conversation_flow m) as [l|] eqn:Hl; [|discriminate].
    exists l. split; [reflexivity|].
    unfold show_message_body. rewrite Hr, Hl. reflexivity.
Qed.

Lemma reachable_replay_branches_witness :
  (role (Message "user" "hello" None None None) = "assistant" /\
   exists l,
     m_conversation_flow (Message "user" "hello" None None None) = Some l /\
     show_message_body (Message "user" "hello" None None None) init_session
     = for_each (deref (heap init_session) l) show_flow_item init_session) \/
  (role (Message "user" "hello" None None None) = "user" /\
   show_message_body (Message "user" "hello" None None None) init_session
   = (Ok tt,
      if negb (String.eqb
                 (content (Message "user" "hello" None None None)) "")
      then set_display
             (display init_session ++
              [Write (PStr (content (Message "user" "hello" None None None)))])
             init_session
      else init_session)).
Proof.
  apply (reachable_replay_branches
           [Submit "hello" [] (fun _ => AgentRun [] (Ok "hi"))]
           (Message "user" "hello" None None None) init_session).
  vm_compute. left. reflexivity.
Defined.

(** ** What is shown while a turn runs *)

(** X18. An assistant message of the documented shape is shown while the turn
    runs exactly as the replay will show its flow items: each text as
    written, each tool call as badge and collapsed input, in the order of
    the elements; and the callback returns. *)
Theorem live_display_is_replay_display :
  forall (els : list element) (s : session_state),
    callback_handler (encode (AssistantMessage els)) s
    = (Ok tt,
       update (display s ++ flat_map assistant_replay els)
         (accumulated_text s) (all_agent_text s)
         (flat_map assistant_adds els) s) /\
    forall s',
      for_each (flat_map assistant_items els) show_flow_item s'
      = (Ok tt, set_display (display s' ++ flat_map assistant_replay els) s').
Proof.
  intros els s. split.
  - pose proof (runs_assistant_elements_live els) as Hw.
    assert (H : runs (callback_handler (encode (AssistantMessage els))) tt
                  (flat_map assistant_replay els)
                  (flat_map assistant_adds els)).
    { unfold callback_handler, handle_message. cbn. eapply runs_eq.
      - eapply runs_bind; [apply runs_lift|]. cbn.
        eapply runs_bind; [apply runs_lift|]. cbn.
        eapply runs_bind; [apply runs_lift|]. cbn.
        eapply runs_bind; [apply runs_lift|].
        eapply runs_bind; [apply runs_lift|].
        exact Hw.
      - reflexivity.
      - reflexivity. }
    specialize (H s (display s) (accumulated_text s) (all_agent_text s) []).
    rewrite update_id in H. exact H.
  - intros s'. apply runs_plain.
    apply runs_for_each_flat_map, runs_assistant_replay.
Qed.

(** ** What a submission shows *)

(** X19. What a submission with a prompt shows when the agent sends events
    of the documented shapes: the upload notice and the bubble of the
    user, the opening of the assistant bubble and the spinner, and for
    each event, in arrival order, what the callback shows for it (nothing
    for a text delta). When the agent then returns, the spinner is left,
    the whole streamed text is written once if it is not empty, and the
    bubble is left; when the agent then raises, the spinner and the bubble
    are left and the streamed text is not written. Nothing else is
    shown. *)
Theorem submission_display :
  forall (s : session_state) (prompt : string) (paths : list string)
         (agent : string -> agent_run) (tevs : list event)
         (o : result string),
    prompt <> "" ->
    agent (full_prompt prompt paths) = AgentRun (map encode tevs) o ->
    display (exec (chat_input prompt paths agent) s)
    = display s ++ user_bubble prompt paths ++
      [ChatMessageOpen "assistant"; SpinnerOpen] ++
      flat_map event_live tevs ++
      closing_after o (join (received_deltas tevs)).
Proof.
  intros s prompt paths agent tevs o Hp Hrun. unfold exec.
  destruct (chat_input prompt paths agent s) as [res s'] eqn:E.
  cbn [snd]. rewrite chat_input_eq in E by exact Hp.
  rewrite (exec_bind_ok _ _ _ _ _ (begin_submission_full prompt paths s)) in E.
  destruct (fresh_buffers (heap s)
              (display s ++ user_bubble prompt paths ++
               [ChatMessageOpen "assistant"; SpinnerOpen])
              (messages s ++ [Message "user" prompt None None None])
              (file_uploader_key s)) as (Hwf & _).
  cbv zeta in Hwf.
  set (s1 := SessionState _ _ _ _ _ _ _ _ _ _) in *.
  rewrite <- (update_id s1), Hrun in E.
  unfold bind at 1 in E. rewrite agent_call_live in E.
  set (s2 := update _ _ _ _ s1) in E.
  assert (D2 : display s2
               = display s ++ user_bubble prompt paths ++
                 [ChatMessageOpen "assistant"; SpinnerOpen] ++
                 flat_map event_live tevs ++
                 closing_after o (join (received_deltas tevs))).
  { unfold s2, s1. cbn [display update accumulated_text String.append].
    rewrite join_received, <- !app_assoc. reflexivity. }
  destruct o as [r|e].
  - assert (Hwf2 : wf_buffers s2) by (apply wf_buffers_update; exact Hwf).
    destruct (finish_submission_full r paths s2 Hwf2) as (m & h' & Ef & _).
    rewrite Ef in E. injection E as <- <-. exact D2.
  - injection E as <- <-. exact D2.
Qed.

Lemma submission_display_witness :
  display (exec (chat_input "hello" ["uploads/a.txt"]
                   (fun _ => AgentRun
                               (map encode
                                  [TextDelta "hi";
                                   AssistantMessage [EText (PStr "hi")]])
                               (Ok "hi")))
                init_session)
  = [UploadedBadge 1; ChatMessageOpen "user"; Write (PStr "hello");
     FilesCaption ["uploads/a.txt"]; ChatMessageClose;
     ChatMessageOpen "assistant"; SpinnerOpen; Write (PStr "hi");
     SpinnerClose; Write (PStr "hi"); ChatMessageClose] /\
  display (exec (chat_input "hello" []
                   (fun _ => AgentRun (map encode [TextDelta "hi"])
                               (Raise AgentFailure)))
                init_session)
  = [ChatMessageOpen "user"; Write (PStr "hello"); ChatMessageClose;
     ChatMessageOpen "assistant"; SpinnerOpen;
     SpinnerClose; ChatMessageClose].
Proof.
  split.
  - apply (submission_display init_session "hello" ["uploads/a.txt"]
             (fun _ => AgentRun
                         (map encode
                            [TextDelta "hi";
                             AssistantMessage [EText (PStr "hi")]])
                         (Ok "hi"))
             [TextDelta "hi"; AssistantMessage [EText (PStr "hi")]] (Ok "hi")).
    + discriminate.
    + reflexivity.
  - apply (submission_display init_session "hello" []
             (fun _ => AgentRun (map encode [TextDelta "hi"])
                         (Raise AgentFailure))
             [TextDelta "hi"] (Raise AgentFailure)).
    + discriminate.
    + reflexivity.
Defined.

(** ** An element with a text and a tool use *)

(** X20. The text branch comes first (lines 67 and 79): an element of an
    assistant message that has a "text" key is recorded and shown as a
    text chunk only, whatever else it holds; a tool use in the same
    element is neither shown nor stored, and cannot make the callback
    raise. *)
Theorem text_shadows_tool_use :
  forall (element : dict) (t : pyval) (s : session_state),
    wf_buffers s ->
    assoc "text" element = Some t ->
    eval (assistant_content (PDict element)) s = Ok tt /\
    flow_log (exec (assistant_content (PDict element)) s)
    = flow_log s ++ [TextChunk t] /\
    tool_calls (exec (assistant_content (PDict element)) s) = tool_calls s /\
    display (exec (assistant_content (PDict element)) s)
    = display s ++ [Write t].
Proof.
  intros element t s Hwf Ht.
  assert (H : runs (assistant_content (PDict element)) tt [Write t] [AText t]).
  { unfold assistant_content, py_in, py_getitem, dict_in. rewrite Ht.
    eapply runs_eq; [ repeat runs_more | reflexivity | reflexivity ]. }
  specialize (H s (display s) (accumulated_text s) (all_agent_text s) []).
  rewrite update_id in H. unfold eval, exec. rewrite H. cbn [fst snd app].
  rewrite flow_log_update, tool_calls_update by exact Hwf.
  split; [reflexivity|]. split; [reflexivity|].
  split; [apply app_nil_r | reflexivity].
Qed.

Lemma text_shadows_tool_use_witness :
  eval (assistant_content
          (PDict [("toolUse", PDict []); ("text", PStr "a")])) init_session
  = Ok tt /\
  flow_log (exec (assistant_content
                    (PDict [("toolUse", PDict []); ("text", PStr "a")]))
                 init_session)
  = flow_log init_session ++ [TextChunk (PStr "a")] /\
  tool_calls (exec (assistant_content
                      (PDict [("toolUse", PDict []); ("text", PStr "a")]))
                   init_session)
  = tool_calls init_session /\
  display (exec (assistant_content
                   (PDict [("toolUse", PDict []); ("text", PStr "a")]))
                init_session)
  = display init_session ++ [Write (PStr "a")].
Proof.
  apply (text_shadows_tool_use [("toolUse", PDict []); ("text", PStr "a")]
           (PStr "a") init_session wf_buffers_init).
  reflexivity.
Defined.
